(** * LiTV extractor (youtube_dl/extractor/litv.py): model and verified properties

    A shallow embedding of [LiTVIE] and the proofs of the properties the
    specification states about it.

    - [Py]      the Python values the extractor handles (what [json.loads]
                produces) with the dynamic operations the source applies to
                them, and the exceptions they raise;
    - [Re]      a backtracking matcher for the fragment of Python's [re]
                syntax that [_VALID_URL] is written in;
    - [Eff]     the effects of one call: the lines sent to the screen and the
                requests handed to the downloader, kept also when the call
                raises;
    - [LiTVIE]  the class itself. *)

From Stdlib Require Import String Ascii List ZArith NArith Bool Lia.
Import ListNotations.
Local Open Scope string_scope.
Local Open Scope list_scope.
Set Warnings "-register-all".

(* ================================================================== *)
(** ** Python values, exceptions and dynamic operations                 *)
(* ================================================================== *)

Module Py.

(** What [json.loads] returns and the extractor passes around.  JSON numbers
    are kept as integers; the extractor never computes with them. *)
Inductive value : Type :=
| VNone
| VBool (b : bool)
| VInt (n : Z)
| VStr (s : string)
| VList (l : list value)
| VDict (d : list (string * value)).

(** The exceptions a call can end with.  [KeyError], [TypeError] and
    [AttributeError] are the interpreter's own; [ExtractorError] and
    [GeoRestrictedError] are the ones of [youtube_dl.utils]; the last three are
    what the helpers of the host raise. *)
Inductive exn : Type :=
| KeyError (key : string)
| TypeError
| AttributeError
| ExtractorError (msg : string) (expected : bool)
| GeoRestrictedError (msg : string)
| NoMatchError
| ParseError (what : string)
| DownloadError (what : string).

Inductive result (A : Type) : Type :=
| Ok (a : A)
| Err (e : exn).
Arguments Ok {A} a.
Arguments Err {A} e.

Definition rbind {A B} (r : result A) (f : A -> result B) : result B :=
  match r with
  | Ok a => f a
  | Err e => Err e
  end.

Notation "x <~ r ;; k" := (rbind r (fun x => k))
  (at level 61, r at next level, right associativity).

(** [[f(x) for x in l]] where [f] may raise: the first exception wins. *)
Fixpoint rmap {A B} (f : A -> result B) (l : list A) : result (list B) :=
  match l with
  | [] => Ok []
  | x :: l' =>
      y <~ f x ;;
      ys <~ rmap f l' ;;
      Ok (y :: ys)
  end.

(** [bool(v)] *)
Definition truthy (v : value) : bool :=
  match v with
  | VNone => false
  | VBool b => b
  | VInt n => negb (n =? 0)%Z
  | VStr s => negb (s =? EmptyString)%string
  | VList l => match l with [] => false | _ => true end
  | VDict d => match d with [] => false | _ => true end
  end.

(** Dictionaries keep their keys in insertion order. *)
Fixpoint lookup (k : string) (d : list (string * value)) : option value :=
  match d with
  | [] => None
  | (k', v) :: d' => if (k' =? k)%string then Some v else lookup k d'
  end.

(** [d[k] = v]: an existing key keeps its place. *)
Fixpoint dict_set (k : string) (v : value) (d : list (string * value))
  : list (string * value) :=
  match d with
  | [] => [(k, v)]
  | (k', v') :: d' =>
      if (k' =? k)%string then (k, v) :: d' else (k', v') :: dict_set k v d'
  end.

(** [o.get(k, default)]: only dictionaries have the method. *)
Definition get (o : value) (k : string) (default : value) : result value :=
  match o with
  | VDict d => Ok match lookup k d with Some v => v | None => default end
  | _ => Err AttributeError
  end.

(** [o[k]] with a string [k]: lists and strings want integer indices, the
    other values are not subscriptable. *)
Definition subscript (o : value) (k : string) : result value :=
  match o with
  | VDict d => match lookup k d with Some v => Ok v | None => Err (KeyError k) end
  | _ => Err TypeError
  end.

Definition is_str (k : string) (v : value) : bool :=
  match v with
  | VStr s => (s =? k)%string
  | _ => false
  end.

Fixpoint is_substring (k s : string) : bool :=
  String.prefix k s ||
  match s with
  | EmptyString => false
  | String _ s' => is_substring k s'
  end.

(** [k in o] with a string [k] *)
Definition contains (k : string) (o : value) : result bool :=
  match o with
  | VDict d => Ok match lookup k d with Some _ => true | None => false end
  | VList l => Ok (existsb (is_str k) l)
  | VStr s => Ok (is_substring k s)
  | _ => Err TypeError
  end.

Fixpoint chars (s : string) : list value :=
  match s with
  | EmptyString => []
  | String a s' => VStr (String a EmptyString) :: chars s'
  end.

(** [for x in o] *)
Definition iterate (o : value) : result (list value) :=
  match o with
  | VList l => Ok l
  | VDict d => Ok (map (fun kv => VStr (fst kv)) d)
  | VStr s => Ok (chars s)
  | _ => Err TypeError
  end.

Definition as_int (v : value) : option Z :=
  match v with
  | VBool b => Some (if b then 1 else 0)%Z
  | VInt n => Some n
  | _ => None
  end.

(** [a + b] *)
Definition add (a b : value) : result value :=
  match a, b with
  | VStr s, VStr s' => Ok (VStr (s ++ s'))
  | VList l, VList l' => Ok (VList (l ++ l'))
  | _, _ =>
      match as_int a, as_int b with
      | Some m, Some n => Ok (VInt (m + n))
      | _, _ => Err TypeError
      end
  end.

(** [a == s] for a string literal [s] *)
Definition eq_str (a : value) (s : string) : bool := is_str s a.

End Py.

(* ================================================================== *)
(** ** Regular expressions: the fragment [_VALID_URL] uses             *)
(* ================================================================== *)

Module Re.

(** Character sets: [.] (anything but a newline) and [[^c]]. *)
Inductive cset : Type :=
| Dot
| NoneOf (c : ascii).

Definition in_cset (cs : cset) (a : ascii) : bool :=
  match cs with
  | Dot => negb (Ascii.eqb a "010"%char)
  | NoneOf c => negb (Ascii.eqb a c)
  end.

Inductive regex : Type :=
| Lit (s : string)                  (* literal text *)
| Cat (r1 r2 : regex)               (* r1 r2 *)
| Alt (r1 r2 : regex)               (* (?:r1|r2) *)
| Opt (r : regex)                   (* (?:r)?   greedy *)
| Plus (cs : cset)                  (* cs+      greedy *)
| LazyStar (cs : cset)              (* cs*?     lazy *)
| WordBoundary                      (* \b *)
| Named (name : string) (r : regex) (* (?P<name>r) *).

(** Where the matcher stands: the character just passed, the text still to
    read, and the groups closed so far (latest first). *)
Record pos : Type := mkpos {
  prev : option ascii;
  rest : string;
  groups : list (string * string)
}.

(** [\w] over 8-bit characters: [[A-Za-z0-9_]] *)
Definition is_word (a : ascii) : bool :=
  let n := N_of_ascii a in
  ((48 <=? n) && (n <=? 57) || (65 <=? n) && (n <=? 90)
   || (97 <=? n) && (n <=? 122) || (n =? 95))%N.

Definition at_word_boundary (p : pos) : bool :=
  xorb
    match prev p with Some a => is_word a | None => false end
    match rest p with String a _ => is_word a | EmptyString => false end.

(** Read the literal [s]. *)
Fixpoint eat (s : string) (pv : option ascii) (rs : string)
  : option (option ascii * string) :=
  match s with
  | EmptyString => Some (pv, rs)
  | String a s' =>
      match rs with
      | String b rs' => if Ascii.eqb a b then eat s' (Some b) rs' else None
      | EmptyString => None
      end
  end.

Section Backtrack.
Context {A : Type}.

(** [cs*]: as many characters as possible first, one fewer on failure of the
    continuation [k]. *)
Fixpoint greedy_star (cs : cset) (pv : option ascii) (rs : string)
    (g : list (string * string)) (k : pos -> option A) : option A :=
  match rs with
  | String a rs' =>
      if in_cset cs a then
        match greedy_star cs (Some a) rs' g k with
        | Some m => Some m
        | None => k (mkpos pv rs g)
        end
      else k (mkpos pv rs g)
  | EmptyString => k (mkpos pv rs g)
  end.

(** [cs*?]: as few characters as possible first. *)
Fixpoint lazy_star (cs : cset) (pv : option ascii) (rs : string)
    (g : list (string * string)) (k : pos -> option A) : option A :=
  match k (mkpos pv rs g) with
  | Some m => Some m
  | None =>
      match rs with
      | String a rs' => if in_cset cs a then lazy_star cs (Some a) rs' g k else None
      | EmptyString => None
      end
  end.

(** The text read between two positions of the same subject. *)
Definition between (from to : pos) : string :=
  substring 0 (String.length (rest from) - String.length (rest to)) (rest from).

(** The matcher, with the alternatives tried in the order [re] tries them;
    [k] is what remains to be matched. *)
Fixpoint bt (r : regex) (p : pos) (k : pos -> option A) : option A :=
  match r with
  | Lit s =>
      match eat s (prev p) (rest p) with
      | Some (pv, rs) => k (mkpos pv rs (groups p))
      | None => None
      end
  | Cat r1 r2 => bt r1 p (fun p' => bt r2 p' k)
  | Alt r1 r2 =>
      match bt r1 p k with
      | Some m => Some m
      | None => bt r2 p k
      end
  | Opt r1 =>
      match bt r1 p k with
      | Some m => Some m
      | None => k p
      end
  | Plus cs =>
      match rest p with
      | String a rs' =>
          if in_cset cs a then greedy_star cs (Some a) rs' (groups p) k else None
      | EmptyString => None
      end
  | LazyStar cs => lazy_star cs (prev p) (rest p) (groups p) k
  | WordBoundary => if at_word_boundary p then k p else None
  | Named name r1 =>
      bt r1 p (fun p' =>
        k (mkpos (prev p') (rest p') ((name, between p p') :: groups p')))
  end.

End Backtrack.

(** [re.match(r, s)]: anchored at the start, free at the end; the groups of
    the first match found. *)
Definition re_match (r : regex) (s : string) : option (list (string * string)) :=
  bt r (mkpos None s []) (fun p => Some (groups p)).

Fixpoint group (name : string) (g : list (string * string)) : option string :=
  match g with
  | [] => None
  | (n, v) :: g' => if (n =? name)%string then Some v else group name g'
  end.

Declare Scope regex_scope.
Delimit Scope regex_scope with re.
Notation "r1 >> r2" := (Cat r1 r2) (at level 60, right associativity) : regex_scope.

End Re.

(* ================================================================== *)
(** ** Effects of a call and the host the extractor runs in            *)
(* ================================================================== *)

Module Eff.
Import Py.

(** What a call does to the outside, in the order it does it. *)
Inductive event : Type :=
| ToScreen (line : string)
| WebpageRequest (url video_id : string)
| JsonRequest (url video_id : string) (query : list (string * string))
    (data : option string) (headers : list (string * string))
| ManifestRequest (m3u8_url : value) (video_id ext entry_protocol m3u8_id : string).

(** A computation reads the events so far and returns its outcome with the
    events extended; an exception keeps what was emitted before it. *)
Definition M (A : Type) : Type := list event -> result A * list event.

Definition ret {A} (a : A) : M A := fun t => (Ok a, t).

Definition raise {A} (e : exn) : M A := fun t => (Err e, t).

Definition bind {A B} (c : M A) (f : A -> M B) : M B :=
  fun t =>
    match c t with
    | (Ok a, t') => f a t'
    | (Err e, t') => (Err e, t')
    end.

Definition lift {A} (r : result A) : M A := fun t => (r, t).

Definition emit (e : event) : M unit := fun t => (Ok tt, t ++ [e]).

Definition when (b : bool) (c : M unit) : M unit := if b then c else ret tt.

Notation "x <- c ;; k" := (bind c (fun x => k))
  (at level 61, c at next level, right associativity).
Notation "c ;; k" := (bind c (fun _ => k))
  (at level 61, right associativity).

(** The collaborators of [extractor/common.py] and [utils.py] and the options
    of the downloader, as the answers they give.  None of them is part of the
    extractor's own file. *)
Record Host : Type := {
  (* [self.IE_NAME] *)
  IE_NAME : string;
  (* [self._downloader.params.get('noplaylist')] *)
  noplaylist_param : value;
  (* what [%s] prints for a value that is not a string *)
  repr : value -> string;
  (* [json.dumps] *)
  json_dumps : value -> string;
  (* [int_or_none] *)
  int_or_none : value -> result value;
  (* [smuggle_url], [unsmuggle_url(url, {})] *)
  smuggle_url : string -> value -> string;
  unsmuggle_url : string -> result (string * value);
  (* [_search_regex(pattern, string, name, default=...)] *)
  _search_regex : string -> string -> string -> string -> string;
  (* [_parse_json(json_string, video_id)] *)
  _parse_json : string -> string -> result value;
  (* the answers to [_download_webpage], [_download_json] and
     [_extract_m3u8_formats] *)
  webpage_response : string -> string -> result string;
  json_response : string -> string -> list (string * string) -> option string ->
                  list (string * string) -> result value;
  manifest_response : value -> string -> string -> string -> string ->
                      result (list value)
}.

Section Collaborators.
Variable h : Host.

(** [%s] applied to a value *)
Definition str (v : value) : string :=
  match v with
  | VStr s => s
  | _ => repr h v
  end.

Definition to_screen (line : string) : M unit := emit (ToScreen line).

Definition _download_webpage (url video_id : string) : M string :=
  emit (WebpageRequest url video_id) ;;
  lift (webpage_response h url video_id).

Definition _download_json (url video_id : string) (query : list (string * string))
    (data : option string) (headers : list (string * string)) : M value :=
  emit (JsonRequest url video_id query data headers) ;;
  lift (json_response h url video_id query data headers).

Definition _extract_m3u8_formats (m3u8_url : value)
    (video_id ext entry_protocol m3u8_id : string) : M (list value) :=
  emit (ManifestRequest m3u8_url video_id ext entry_protocol m3u8_id) ;;
  lift (manifest_response h m3u8_url video_id ext entry_protocol m3u8_id).

End Collaborators.

End Eff.

(* ================================================================== *)
(** ** The extractor                                                    *)
(* ================================================================== *)

Module LiTVIE.
Import Py Re Eff.

(** The error kinds of the specification (its section 7). *)
Inductive ErrorKind : Type :=
| NoMatch
| ParseFailure
| GeoRestricted
| RemoteError
| UnexpectedResponse.

(** Modelled from the spec: the taxonomy of section 7 is the specification's
    own naming of the exceptions; the classes themselves are declared in
    [utils.py], which is not part of the sources.  A service-reported message
    is an expected [ExtractorError], a missing manifest without explanation an
    unexpected one; malformed embedded data is what [_parse_json] raises. *)
Definition error_kind (e : exn) : option ErrorKind :=
  match e with
  | NoMatchError => Some NoMatch
  | ParseError _ => Some ParseFailure
  | GeoRestrictedError _ => Some GeoRestricted
  | ExtractorError _ true => Some RemoteError
  | ExtractorError _ false => Some UnexpectedResponse
  | KeyError _ | TypeError | AttributeError | DownloadError _ => None
  end.

(** The dictionary [_real_extract] returns for one video (lines 143-151). *)
Record ResultRecord : Type := {
  r_id : string;
  r_formats : list value;
  r_title : value;
  r_description : value;
  r_thumbnail : value;
  r_categories : list value;
  r_episode_number : value
}.

(** Modelled from the spec: [url_result] and [playlist_result] are methods of
    [InfoExtractor] in [extractor/common.py], not part of the sources.  A
    playlist is keyed by an id and a title and holds its entries in order; an
    entry that is still to be resolved is the URL to resolve. *)
Inductive info : Type :=
| Video (r : ResultRecord)
| UrlResult (url : string)
| PlaylistResult (entries : list info) (playlist_id playlist_title : value).

Definition url_result (url : string) : info := UrlResult url.

Definition playlist_result (entries : list info) (playlist_id playlist_title : value)
  : info :=
  PlaylistResult entries playlist_id playlist_title.

(** Line 16:
    [https?://(?:www\.)?litv\.tv/(?:vod|promo)/[^/]+/(?:content\.do)?\?.*?\b(?:content_)?id=(?P<id>[^&]+)] *)
Definition _VALID_URL : regex :=
  (Lit "http" >> Opt (Lit "s") >> Lit "://" >> Opt (Lit "www.") >> Lit "litv.tv/"
   >> Alt (Lit "vod") (Lit "promo") >> Lit "/" >> Plus (NoneOf "/") >> Lit "/"
   >> Opt (Lit "content.do") >> Lit "?" >> LazyStar Dot >> WordBoundary
   >> Opt (Lit "content_") >> Lit "id=" >> Named "id" (Plus (NoneOf "&")))%re.

(** Modelled from the spec: [_match_id] is a method of [InfoExtractor] in
    [extractor/common.py], not part of the sources.  It matches the URL against
    [_VALID_URL] and returns the group [id]; the specification has it fail
    with [NoMatch] when the pattern does not match. *)
Definition _match_id (url : string) : result string :=
  match re_match _VALID_URL url with
  | Some g =>
      match group "id" g with
      | Some v => Ok v
      | None => Err NoMatchError
      end
  | None => Err NoMatchError
  end.

(** Modelled from the spec: [raise_geo_restricted] is a method of
    [InfoExtractor] in [extractor/common.py], not part of the sources; it ends
    the call with the geo-restriction signal carrying the message. *)
Definition raise_geo_restricted {A} (msg : string) : M A :=
  raise (GeoRestrictedError msg).

Definition dq : string := String "034"%char EmptyString.

(** The three patterns searched in the webpage (lines 83, 87 and 109). *)
Definition PROGRAM_INFO_RE : string := "var\s+programInfo\s*=\s*([^;]+)".

Definition SEASON_LIST_RE : string :=
  dq ++ "@type" ++ dq ++ ":\s+" ++ dq ++ "ItemList" ++ dq ++ ",\s+" ++ dq
     ++ "itemListElement" ++ dq ++ ":\s+(\[[^\]]+\])".

Definition VIDEO_DATA_RE : string := "uiHlsUrl\s*=\s*testBackendData\(([^;]+)\);".

(** The local variables of [_real_extract] once the page is read (line 89). *)
Record locals : Type := {
  l_url : string;
  l_video_id : string;
  l_noplaylist : value;
  l_noplaylist_prompt : bool;
  l_webpage : string;
  l_program_info : value;
  l_episodes_list : value
}.

(** Line 135: [a_format.setdefault('http_headers', {})['Youtubedl-no-compression'] = True] *)
Definition no_compression (a_format : value) : result value :=
  match a_format with
  | VDict d =>
      let http_headers :=
        match lookup "http_headers" d with
        | Some hd => hd
        | None => VDict []
        end in
      match http_headers with
      | VDict hd =>
          Ok (VDict (dict_set "http_headers"
                       (VDict (dict_set "Youtubedl-no-compression" (VBool true) hd)) d))
      | _ => Err TypeError
      end
  | _ => Err AttributeError
  end.

Section Extractor.
Variable h : Host.

(** Lines 54-67.  [smuggle_url] works on the text of the URL: an episode
    whose [url] is not a string raises [TypeError]. *)
Definition _extract_playlist (episodes_list : value) (video_id : string)
    (program_info : value) (prompt : bool) : M info :=
  episode_title <- lift (subscript program_info "title") ;;
  content_id <- lift (subscript program_info "contentId") ;;
  when prompt
    (to_screen ("Downloading playlist " ++ str h content_id
                ++ " - add --no-playlist to just download video " ++ video_id)) ;;
  all_episodes <- lift (
    episodes <~ iterate episodes_list ;;
    rmap (fun episode =>
            episode_url <~ subscript episode "url" ;;
            match episode_url with
            | VStr u =>
                Ok (url_result (smuggle_url h u (VDict [("force_noplaylist", VBool true)])))
            | _ => Err TypeError
            end) episodes) ;;
  ret (playlist_result all_episodes content_id episode_title).

(** Lines 70-89: the URL, the playlist intent and the data embedded in the
    page. *)
Definition read_page (url : string) : M locals :=
  unsmuggled <- lift (unsmuggle_url h url) ;;
  let url := fst unsmuggled in
  let data := snd unsmuggled in
  video_id <- lift (_match_id url) ;;
  let noplaylist := noplaylist_param h in
  let noplaylist_prompt := true in
  forced <- lift (contains "force_noplaylist" data) ;;
  intent <- (if forced
             then (v <- lift (subscript data "force_noplaylist") ;; ret (v, false))
             else ret (noplaylist, noplaylist_prompt)) ;;
  webpage <- _download_webpage h url video_id ;;
  program_info <- lift (_parse_json h
      (_search_regex h PROGRAM_INFO_RE webpage "VOD data" "{}") video_id) ;;
  episodes_list <- lift (_parse_json h
      (_search_regex h SEASON_LIST_RE webpage "Season list" "[]") video_id) ;;
  ret {| l_url := url; l_video_id := video_id;
         l_noplaylist := fst intent; l_noplaylist_prompt := snd intent;
         l_webpage := webpage; l_program_info := program_info;
         l_episodes_list := episodes_list |}.

(** Lines 90-97: [Some] is the early return of the playlist. *)
Definition playlist_branch (c : locals) : M (option info) :=
  if truthy (l_episodes_list c) then
    if negb (truthy (l_noplaylist c)) then
      playlist <- _extract_playlist (l_episodes_list c) (l_video_id c)
                    (l_program_info c) (l_noplaylist_prompt c) ;;
      ret (Some playlist)
    else
      when (l_noplaylist_prompt c)
        (to_screen ("Downloading just video " ++ l_video_id c
                    ++ " because of --no-playlist")) ;;
      ret None
  else ret None.

(** Lines 103-107. *)
Definition program_info_step (video_id : string) (program_info : value) : M value :=
  has_asset <- lift (contains "assetId" program_info) ;;
  if negb has_asset then
    _download_json h "https://www.litv.tv/vod/ajax/getProgramInfo" video_id
      [("contentId", video_id)] None [("Accept", "application/json")]
  else ret program_info.

(** Lines 108-120. *)
Definition video_data_step (video_id webpage : string) (program_info : value)
  : M value :=
  video_data <- lift (_parse_json h
      (_search_regex h VIDEO_DATA_RE webpage "video data" "{}") video_id) ;;
  if negb (truthy video_data) then
    payload <- lift (
      assetId <~ subscript program_info "assetId" ;;
      watchDevices <~ subscript program_info "watchDevices" ;;
      contentType <~ subscript program_info "contentType" ;;
      Ok (VDict [("assetId", assetId); ("watchDevices", watchDevices);
                 ("contentType", contentType)])) ;;
    _download_json h "https://www.litv.tv/vod/ajax/getMainUrlNoAuth" video_id
      [] (Some (json_dumps h payload)) [("Content-Type", "application/json")]
  else ret video_data.

(** Lines 122-128. *)
Definition require_fullpath (video_data : value) : M unit :=
  fullpath <- lift (get video_data "fullpath" VNone) ;;
  if negb (truthy fullpath) then
    error_msg <- lift (get video_data "errorMessage" VNone) ;;
    if eq_str error_msg "vod.error.outsideregionerror" then
      raise_geo_restricted "This video is available in Taiwan only"
    else if truthy error_msg then
      raise (ExtractorError (IE_NAME h ++ " said: " ++ str h error_msg) true)
    else
      raise (ExtractorError ("Unexpected result from " ++ IE_NAME h) false)
  else ret tt.

(** Lines 137-151. *)
Definition metadata (video_id : string) (formats : list value) (program_info : value)
  : result info :=
  title0 <~ subscript program_info "title" ;;
  secondaryMark <~ get program_info "secondaryMark" (VStr EmptyString) ;;
  title <~ add title0 secondaryMark ;;
  description <~ get program_info "description" VNone ;;
  thumbnail <~ get program_info "imageFile" VNone ;;
  category <~ get program_info "category" (VList []) ;;
  items <~ iterate category ;;
  categories <~ rmap (fun item => subscript item "name") items ;;
  episode0 <~ get program_info "episode" VNone ;;
  episode <~ int_or_none h episode0 ;;
  Ok (Video {| r_id := video_id; r_formats := formats; r_title := title;
               r_description := description; r_thumbnail := thumbnail;
               r_categories := categories; r_episode_number := episode |}).

(** Lines 130-151. *)
Definition build_result (video_id : string) (program_info video_data : value)
  : M info :=
  m3u8_url <- lift (subscript video_data "fullpath") ;;
  formats <- _extract_m3u8_formats h m3u8_url video_id "mp4" "m3u8_native" "hls" ;;
  formats <- lift (rmap no_compression formats) ;;
  lift (metadata video_id formats program_info).

(** Lines 99-151: the path of a single video. *)
Definition single_video (video_id webpage : string) (program_info : value) : M info :=
  program_info <- program_info_step video_id program_info ;;
  video_data <- video_data_step video_id webpage program_info ;;
  require_fullpath video_data ;;
  build_result video_id program_info video_data.

(** Lines 69-151. *)
Definition _real_extract (url : string) : M info :=
  c <- read_page url ;;
  early <- playlist_branch c ;;
  match early with
  | Some playlist => ret playlist
  | None => single_video (l_video_id c) (l_webpage c) (l_program_info c)
  end.

End Extractor.

End LiTVIE.

(* ================================================================== *)
(** ** Vocabulary of the statements                                     *)
(* ================================================================== *)

(** Every character of [s] passes [f]. *)
Fixpoint string_forall (f : ascii -> bool) (s : string) : bool :=
  match s with
  | EmptyString => true
  | String a s' => f a && string_forall f s'
  end.

Definition not_amp (a : ascii) : bool := negb (Ascii.eqb a "&"%char).

Definition not_slash (a : ascii) : bool := negb (Ascii.eqb a "/"%char).

Module Obs.
Import Py Re Eff LiTVIE.


Definition url_id : regex := (Lit "id=" >> Named "id" (Plus (NoneOf "&")))%re.

(** What [_VALID_URL] matches the query with, after the [?]. *)
Definition url_query : regex :=
  (LazyStar Dot >> WordBoundary >> Opt (Lit "content_") >> url_id)%re.

(** The character in front of the matcher once it has read [w]. *)
Fixpoint last_of (pv : option ascii) (w : string) : option ascii :=
  match w with
  | EmptyString => pv
  | String a w' => last_of (Some a) w'
  end.

(** [s] is empty or starts outside [cs]. *)
Definition stops (cs : cset) (s : string) : Prop :=
  match s with
  | EmptyString => True
  | String a _ => in_cset cs a = false
  end.

(** The lines of a trace that went to the screen. *)
Fixpoint screen_lines (evs : list event) : list string :=
  match evs with
  | [] => []
  | ToScreen line :: evs' => line :: screen_lines evs'
  | _ :: evs' => screen_lines evs'
  end.

(** A computation is framed when its outcome and what it emits do not depend
    on the events before it: it only appends. *)
Definition framed {A} (c : M A) : Prop :=
  forall t, c t = (fst (c []), t ++ snd (c [])).

(** A computation whose screen lines satisfy [P], whatever it returns. *)
Definition prints {A} (P : list string -> Prop) (c : M A) : Prop :=
  forall t, exists evs, snd (c t) = t ++ evs /\ P (screen_lines evs).

Definition silent {A} (c : M A) : Prop := prints (fun lines => lines = []) c.

(** The two notices of the extractor (lines 59 and 97). *)
Definition playlist_notice (h : Host) (content_id : value) (video_id : string) : string :=
  "Downloading playlist " ++ str h content_id
    ++ " - add --no-playlist to just download video " ++ video_id.

Definition single_notice (video_id : string) : string :=
  "Downloading just video " ++ video_id ++ " because of --no-playlist".

(** What lines 90-97 may print: nothing, or one of the two notices, and
    nothing when the notice is switched off. *)
Definition one_notice (h : Host) (c : locals) (lines : list string) : Prop :=
  lines = [] \/
  l_noplaylist_prompt c = true /\
  ((exists content_id, lines = [playlist_notice h content_id (l_video_id c)]) \/
   lines = [single_notice (l_video_id c)]).

(** The two requests of the single-video path (lines 104-107 and 117-120). *)
Definition program_info_request (video_id : string) : event :=
  JsonRequest "https://www.litv.tv/vod/ajax/getProgramInfo" video_id
    [("contentId", video_id)] None [("Accept", "application/json")].

Definition main_url_request (h : Host) (video_id : string)
    (assetId watchDevices contentType : value) : event :=
  JsonRequest "https://www.litv.tv/vod/ajax/getMainUrlNoAuth" video_id []
    (Some (json_dumps h (VDict [("assetId", assetId); ("watchDevices", watchDevices);
                                ("contentType", contentType)])))
    [("Content-Type", "application/json")].

(** A call has taken the single-video path up to line 107: the page is read,
    no playlist is returned, and [program_info] is what the later steps use. *)
Definition on_single_path (h : Host) (url : string) (t : list event)
    (c : locals) (program_info : value) (t' : list event) : Prop :=
  exists t1 t2,
    read_page h url t = (Ok c, t1) /\
    playlist_branch h c t1 = (Ok None, t2) /\
    program_info_step h (l_video_id c) (l_program_info c) t2 = (Ok program_info, t').

(** A call has reached line 122 with [video_data]. *)
Definition reaches_video_data (h : Host) (url : string) (t : list event)
    (c : locals) (program_info video_data : value) (t' : list event) : Prop :=
  exists t3,
    on_single_path h url t c program_info t3 /\
    video_data_step h (l_video_id c) (l_webpage c) program_info t3
      = (Ok video_data, t').

(** A format carries the header that disables compression. *)
Definition no_compression_forced (a_format : value) : Prop :=
  exists d hd,
    a_format = VDict d /\
    lookup "http_headers" d = Some (VDict hd) /\
    lookup "Youtubedl-no-compression" hd = Some (VBool true).

(** Two hosts that answer alike. *)
Record same_answers (h1 h2 : Host) : Prop := {
  same_IE_NAME : IE_NAME h1 = IE_NAME h2;
  same_noplaylist : noplaylist_param h1 = noplaylist_param h2;
  same_repr : forall v, repr h1 v = repr h2 v;
  same_json_dumps : forall v, json_dumps h1 v = json_dumps h2 v;
  same_int_or_none : forall v, int_or_none h1 v = int_or_none h2 v;
  same_smuggle : forall u d, smuggle_url h1 u d = smuggle_url h2 u d;
  same_unsmuggle : forall u, unsmuggle_url h1 u = unsmuggle_url h2 u;
  same_search : forall p s n d, _search_regex h1 p s n d = _search_regex h2 p s n d;
  same_parse : forall s v, _parse_json h1 s v = _parse_json h2 s v;
  same_webpage : forall u v, webpage_response h1 u v = webpage_response h2 u v;
  same_json : forall u v q d hd,
    json_response h1 u v q d hd = json_response h2 u v q d hd;
  same_manifest : forall u v e p i,
    manifest_response h1 u v e p i = manifest_response h2 u v e p i
}.

End Obs.

(* ================================================================== *)
(** ** Hosts to run the extractor on                                    *)
(* ================================================================== *)

Module Sample.
Import Py Re Eff LiTVIE.

Definition smuggled : value := VDict [("force_noplaylist", VBool true)].

Definition SMUGGLE_MARK : string := "#__youtubedl_smuggle".

(** A host.  Its page embeds [program_info], [episodes_list] and
    [video_data], each or none of them: where the page embeds a value, the
    text the pattern captures is written as the name [_search_regex] is given
    for it, and [_parse_json] reads that name as the value; where it embeds
    none, [_search_regex] returns the default it is given.  The only bag ever
    smuggled is [smuggled], written as a mark at the end of the URL. *)
Definition host (noplaylist : value)
    (program_info episodes_list video_data : option value)
    (api_program_info api_video_data : result value)
    (formats : result (list value)) : Host :=
  let embedded (name : string) : option value :=
    if (name =? "VOD data")%string then program_info
    else if (name =? "Season list")%string then episodes_list
    else if (name =? "video data")%string then video_data
    else None in
  {| IE_NAME := "LiTV";
     noplaylist_param := noplaylist;
     repr := fun _ => "<object>";
     json_dumps := fun _ => "<json>";
     int_or_none := fun v => Ok match v with VInt n => VInt n | _ => VNone end;
     smuggle_url := fun u _ => (u ++ SMUGGLE_MARK)%string;
     unsmuggle_url := fun u =>
       match String.index 0 SMUGGLE_MARK u with
       | Some n => Ok (substring 0 n u, smuggled)
       | None => Ok (u, VDict [])
       end;
     _search_regex := fun _ _ name default =>
       match embedded name with
       | Some _ => name
       | None => default
       end;
     _parse_json := fun s _ =>
       if (s =? "{}")%string then Ok (VDict [])
       else if (s =? "[]")%string then Ok (VList [])
       else match embedded s with
            | Some v => Ok v
            | None => Err (ParseError s)
            end;
     webpage_response := fun _ _ => Ok "<html>";
     json_response := fun u _ _ _ _ =>
       if (u =? "https://www.litv.tv/vod/ajax/getProgramInfo")%string
       then api_program_info else api_video_data;
     manifest_response := fun _ _ _ _ _ => formats |}.

Definition url : string :=
  "https://www.litv.tv/vod/drama/content.do?content_id=VOD00037490".

Definition program_info : value :=
  VDict [("contentId", VStr "VOD00037490"); ("title", VStr "Drama");
         ("secondaryMark", VStr " ep. 1"); ("episode", VInt 1);
         ("category", VList [VDict [("name", VStr "drama")]]);
         ("assetId", VStr "vod1"); ("watchDevices", VList [VStr "PC"]);
         ("contentType", VStr "drama")].

Definition episode_urls : list string :=
  ["https://www.litv.tv/vod/drama/content.do?content_id=VOD00037490";
   "https://www.litv.tv/vod/drama/content.do?content_id=VOD00037491"].

Definition episode_entries : list value :=
  map (fun u => VDict [("url", VStr u)]) episode_urls.

Definition episodes : value := VList episode_entries.

Definition video_data : value :=
  VDict [("fullpath", VStr "https://litv.example/hls/vod1.m3u8")].

Definition formats : list value :=
  [VDict [("format_id", VStr "hls-500")];
   VDict [("format_id", VStr "hls-900");
          ("http_headers", VDict [("Referer", VStr "https://www.litv.tv/")])]].

(** The page as seen from Taiwan, playlist wanted. *)
Definition playlist_host : Host :=
  host VNone (Some program_info) (Some episodes) (Some video_data)
       (Err (DownloadError "getProgramInfo")) (Err (DownloadError "getMainUrlNoAuth"))
       (Ok formats).

(** The same page with [--no-playlist]. *)
Definition noplaylist_host : Host :=
  host (VBool true) (Some program_info) (Some episodes) (Some video_data)
       (Err (DownloadError "getProgramInfo")) (Err (DownloadError "getMainUrlNoAuth"))
       (Ok formats).

(** The URL of an entry of the playlist: the page URL with the bag smuggled. *)
Definition episode_url : string := smuggle_url playlist_host url smuggled.

(** A page with the episode list and no [programInfo] assignment. *)
Definition bare_list_host : Host :=
  host VNone None (Some episodes) None
       (Ok program_info) (Ok video_data) (Ok formats).

(** A page without embedded data: both requests are needed. *)
Definition bare_host (api_video_data : value) : Host :=
  host VNone None None None
       (Ok program_info) (Ok api_video_data) (Ok formats).

(** A page without embedded data, for which the service reports the region. *)
Definition geo_blocked_host : Host :=
  bare_host (VDict [("errorMessage", VStr "vod.error.outsideregionerror")]).

(** The locals of the sample calls once the page is read (line 89), and the
    events up to there. *)
Definition video_id : string := "VOD00037490".

Definition locals_of (noplaylist : value) (prompt : bool)
    (program_info episodes_list : value) : locals :=
  {| l_url := url; l_video_id := video_id;
     l_noplaylist := noplaylist; l_noplaylist_prompt := prompt;
     l_webpage := "<html>"; l_program_info := program_info;
     l_episodes_list := episodes_list |}.

Definition page_read : list event := [WebpageRequest url video_id].

Definition forced_formats : list value :=
  [VDict [("format_id", VStr "hls-500");
          ("http_headers", VDict [("Youtubedl-no-compression", VBool true)])];
   VDict [("format_id", VStr "hls-900");
          ("http_headers", VDict [("Referer", VStr "https://www.litv.tv/");
                                  ("Youtubedl-no-compression", VBool true)])]].

Definition record : ResultRecord :=
  {| r_id := video_id; r_formats := forced_formats;
     r_title := VStr "Drama ep. 1"; r_description := VNone;
     r_thumbnail := VNone; r_categories := [VStr "drama"];
     r_episode_number := VInt 1 |}.

Definition manifest_request : event :=
  ManifestRequest (VStr "https://litv.example/hls/vod1.m3u8") video_id
    "mp4" "m3u8_native" "hls".

End Sample.

(* ================================================================== *)
(** ** Vocabulary of the further statements                             *)
(* ================================================================== *)

Module Req.
Import Py Re Eff LiTVIE.

(** The requests of a call, numbered in the order the source makes them: the
    page, [getProgramInfo], [getMainUrlNoAuth], the manifest.  A JSON request
    to any other address would be numbered 4. *)
Definition rank (e : event) : option nat :=
  match e with
  | ToScreen _ => None
  | WebpageRequest _ _ => Some 0
  | JsonRequest u _ _ _ _ =>
      if (u =? "https://www.litv.tv/vod/ajax/getProgramInfo")%string then Some 1
      else if (u =? "https://www.litv.tv/vod/ajax/getMainUrlNoAuth")%string then Some 2
      else Some 4
  | ManifestRequest _ _ _ _ _ => Some 3
  end.

Fixpoint requests (evs : list event) : list nat :=
  match evs with
  | [] => []
  | e :: evs' =>
      match rank e with
      | Some n => n :: requests evs'
      | None => requests evs'
      end
  end.

(** Strictly increasing. *)
Fixpoint in_order (l : list nat) : bool :=
  match l with
  | [] => true
  | n :: l' =>
      match l' with
      | [] => true
      | m :: _ => (n <? m)%nat && in_order l'
      end
  end.

(** Only the four requests of the source: no JSON request to another
    address. *)
Definition only_known (l : list nat) : bool := forallb (fun n => (n <? 4)%nat) l.

Definition page_first (l : list nat) : bool :=
  match l with
  | [] => true
  | n :: _ => (n =? 0)%nat
  end.

(** A computation whose requests are one of the sequences [Lok] when it
    returns and one of [Lerr] when it raises. *)
Definition asks {A} (Lok Lerr : list (list nat)) (c : M A) : Prop :=
  forall t, exists evs,
    snd (c t) = t ++ evs /\
    match fst (c t) with
    | Ok _ => In (requests evs) Lok
    | Err _ => In (requests evs) Lerr
    end.

(** The sequences of [L1] each followed by one of [L2]. *)
Definition followed (L1 L2 : list (list nat)) : list (list nat) :=
  flat_map (fun l1 => map (app l1) L2) L1.

(** [d.get(k, default)] on the pairs of a dictionary. *)
Definition field (k : string) (default : value) (d : list (string * value)) : value :=
  match lookup k d with
  | Some v => v
  | None => default
  end.

(** [a_format'] is [a_format] with nothing changed but the header forced:
    the other fields as they were, in their places, and the other headers as
    they were. *)
Definition only_header_forced (a_format a_format' : value) : Prop :=
  exists d d',
    a_format = VDict d /\ a_format' = VDict d' /\
    (forall k, k <> "http_headers" -> lookup k d' = lookup k d) /\
    (exists hd hd',
       field "http_headers" (VDict []) d = VDict hd /\
       lookup "http_headers" d' = Some (VDict hd') /\
       lookup "Youtubedl-no-compression" hd' = Some (VBool true) /\
       forall k, k <> "Youtubedl-no-compression" -> lookup k hd' = lookup k hd).

(** The bag the playlist smuggles into the URL of each entry (line 64). *)
Definition force_noplaylist : value := VDict [("force_noplaylist", VBool true)].

(** The host [h] run with another value of the [noplaylist] option. *)
Definition with_noplaylist (v : value) (h : Host) : Host :=
  {| IE_NAME := IE_NAME h;
     noplaylist_param := v;
     repr := repr h;
     json_dumps := json_dumps h;
     int_or_none := int_or_none h;
     smuggle_url := smuggle_url h;
     unsmuggle_url := unsmuggle_url h;
     _search_regex := _search_regex h;
     _parse_json := _parse_json h;
     webpage_response := webpage_response h;
     json_response := json_response h;
     manifest_response := manifest_response h |}.

(** The host [h] with the site out of reach. *)
Definition offline (h : Host) : Host :=
  {| IE_NAME := IE_NAME h;
     noplaylist_param := noplaylist_param h;
     repr := repr h;
     json_dumps := json_dumps h;
     int_or_none := int_or_none h;
     smuggle_url := smuggle_url h;
     unsmuggle_url := unsmuggle_url h;
     _search_regex := _search_regex h;
     _parse_json := _parse_json h;
     webpage_response := fun _ _ => Err (DownloadError "webpage");
     json_response := json_response h;
     manifest_response := manifest_response h |}.

(** The host [h] with other answers of the manifest parser. *)
Definition with_manifest
    (m : value -> string -> string -> string -> string -> result (list value))
    (h : Host) : Host :=
  {| IE_NAME := IE_NAME h;
     noplaylist_param := noplaylist_param h;
     repr := repr h;
     json_dumps := json_dumps h;
     int_or_none := int_or_none h;
     smuggle_url := smuggle_url h;
     unsmuggle_url := unsmuggle_url h;
     _search_regex := _search_regex h;
     _parse_json := _parse_json h;
     webpage_response := webpage_response h;
     json_response := json_response h;
     manifest_response := m |}.

(** The state a call leaves behind.  The format dictionaries the manifest
    parser hands out are the one thing the source writes to (line 135), and it
    writes to them in place: a later call that is handed the same objects
    finds them as the loop of lines 133-135 left them, that is treated up to
    the first format on which the loop raised, and untouched from there on. *)
Fixpoint in_place (formats : list value) : list value :=
  match formats with
  | [] => []
  | a_format :: formats' =>
      match no_compression a_format with
      | Ok a_format' => a_format' :: in_place formats'
      | Err _ => a_format :: formats'
      end
  end.

(** A format object as some earlier call may have left it. *)
Definition treated (a_format a_format' : value) : Prop :=
  a_format' = a_format \/ no_compression a_format = Ok a_format'.

(** [h2] answers as [h1] does, and its manifest parser hands out the objects
    of [h1], each untouched or as earlier calls have left it. *)
Record same_objects (h1 h2 : Host) : Prop := {
  so_IE_NAME : IE_NAME h1 = IE_NAME h2;
  so_noplaylist : noplaylist_param h1 = noplaylist_param h2;
  so_repr : forall v, repr h1 v = repr h2 v;
  so_json_dumps : forall v, json_dumps h1 v = json_dumps h2 v;
  so_int_or_none : forall v, int_or_none h1 v = int_or_none h2 v;
  so_smuggle : forall u d, smuggle_url h1 u d = smuggle_url h2 u d;
  so_unsmuggle : forall u, unsmuggle_url h1 u = unsmuggle_url h2 u;
  so_search : forall p s n d, _search_regex h1 p s n d = _search_regex h2 p s n d;
  so_parse : forall s v, _parse_json h1 s v = _parse_json h2 s v;
  so_webpage : forall u v, webpage_response h1 u v = webpage_response h2 u v;
  so_json : forall u v q d hd,
    json_response h1 u v q d hd = json_response h2 u v q d hd;
  so_manifest : forall u v e p i,
    match manifest_response h1 u v e p i with
    | Ok formats =>
        exists formats',
          manifest_response h2 u v e p i = Ok formats' /\
          Forall2 treated formats formats'
    | Err x => manifest_response h2 u v e p i = Err x
    end
}.

(** The sample host after a first call: the parser hands out the formats
    with the header already forced into them. *)
Definition second_call_host : Host :=
  with_manifest (fun _ _ _ _ _ => Ok (in_place Sample.formats)) Sample.noplaylist_host.

(** A page that embeds a program info with [assetId] alone and no video
    data. *)
Definition asset_only_host : Host :=
  Sample.host VNone (Some (VDict [("assetId", VStr "vod1")])) None None
    (Err (DownloadError "getProgramInfo")) (Ok Sample.video_data) (Ok Sample.formats).

(** The manifest request of line 130. *)
Definition manifest_request (m3u8_url : value) (video_id : string) : event :=
  ManifestRequest m3u8_url video_id "mp4" "m3u8_native" "hls".

End Req.

(* ================================================================== *)
(** ** Strings                                                          *)
(* ================================================================== *)

Section StringFacts.
Local Open Scope string_scope.


Lemma append_empty_r (a : string) : a ++ EmptyString = a.
Proof. induction a as [|x a IH]; simpl; [reflexivity | now rewrite IH]. Qed.

Lemma length_append (a b : string) :
  String.length (a ++ b) = String.length a + String.length b.
Proof. induction a as [|x a IH]; simpl; [reflexivity | now rewrite IH]. Qed.

Lemma substring_prefix (a b : string) :
  substring 0 (String.length a) (a ++ b) = a.
Proof.
  induction a as [|x a IH]; simpl.
  - destruct b; reflexivity.
  - now rewrite IH.
Qed.

End StringFacts.

(* ================================================================== *)
(** ** The matcher only moves forward                                   *)
(* ================================================================== *)

Module ReFacts.
Import Re.
Local Open Scope string_scope.

Lemma eat_append s : forall pv rs pv' rs',
  eat s pv rs = Some (pv', rs') -> rs = s ++ rs'.
Proof.
  induction s as [|a s IH]; simpl; intros pv rs pv' rs' H.
  - now inversion H.
  - destruct rs as [|b rs]; [discriminate|].
    destruct (Ascii.eqb_spec a b) as [->|]; [|discriminate].
    apply IH in H. now subst.
Qed.

Section Continuations.
Context {A : Type}.
Implicit Types (k : pos -> option A) (m : A).





End Continuations.

End ReFacts.

Section MatchId.
Import Py Re Eff LiTVIE Obs ReFacts.
Local Open Scope string_scope.




Lemma greedy_star_all {A} cs w : forall pv tail g (k : pos -> option A) m,
  string_forall (in_cset cs) w = true -> stops cs tail ->
  k (mkpos (last_of pv w) tail g) = Some m ->
  greedy_star cs pv (w ++ tail) g k = Some m.
Proof.
  induction w as [|a w IH]; simpl; intros pv tail g k m Hw Hstop Hk.
  - destruct tail as [|b tail]; simpl; [exact Hk|].
    simpl in Hstop. now rewrite Hstop.
  - apply andb_true_iff in Hw as [Ha Hw]. rewrite Ha.
    now rewrite (IH (Some a) tail g k m Hw Hstop Hk).
Qed.

Lemma url_id_matches pv v post g :
  v <> EmptyString -> string_forall not_amp v = true ->
  (post = EmptyString \/ exists post', post = "&" ++ post') ->
  bt url_id (mkpos pv ("id=" ++ v ++ post) g) (fun q => Some (groups q))
  = Some (("id", v) :: g).
Proof.
  intros Hne Hv Hpost. destruct v as [|a v]; [contradiction|].
  simpl in Hv. apply andb_true_iff in Hv as [Ha Hv].
  unfold url_id. cbn -[between greedy_star].
  change (negb (Ascii.eqb a "&")) with (not_amp a). rewrite Ha.
  erewrite greedy_star_all; [| exact Hv | | reflexivity].
  - cbn [groups rest]. unfold between. cbn [rest].
    replace (String.length (String a (v ++ post)) - String.length post)
      with (String.length (String a v))
      by (cbn [String.length]; rewrite length_append; lia).
    do 3 f_equal. apply (substring_prefix (String a v) post).
  - destruct Hpost as [-> | [post' ->]]; simpl; auto.
Qed.

Lemma url_query_matches v post g :
  v <> EmptyString -> string_forall not_amp v = true ->
  (post = EmptyString \/ exists post', post = "&" ++ post') ->
  bt url_query (mkpos (Some "?"%char) ("content_id=" ++ v ++ post) g)
     (fun q => Some (groups q))
  = Some (("id", v) :: g).
Proof.
  intros Hne Hv Hpost. unfold url_query.
  cbn -[url_id]. now rewrite (url_id_matches _ v post g Hne Hv Hpost).
Qed.

(** The matcher on the URLs of the tests and on some near misses. *)
Example match_id_promo :
  _match_id "https://www.litv.tv/promo/miyuezhuan/?content_id=VOD00044841&"
  = Ok "VOD00044841".
Proof. vm_compute. reflexivity. Qed.

Example match_id_skips_empty_value :
  _match_id "http://litv.tv/vod/x/?a=1&xid=3&id=&id=77&content_id=5" = Ok "77".
Proof. vm_compute. reflexivity. Qed.

Example match_id_needs_word_boundary :
  _match_id "http://litv.tv/vod/x/?video_id=3" = Err NoMatchError.
Proof. vm_compute. reflexivity. Qed.

Example match_id_needs_one_path_segment :
  _match_id "http://litv.tv/vod/a/b/content.do?id=3" = Err NoMatchError.
Proof. vm_compute. reflexivity. Qed.

End MatchId.

(* ================================================================== *)
(** ** Running computations                                             *)
(* ================================================================== *)

Module EffFacts.
Import Py Eff Obs.

Lemma rbind_ok {A B} (r : result A) (f : A -> result B) a :
  r = Ok a -> rbind r f = f a.
Proof. now intros ->. Qed.

Lemma rbind_inv {A B} (r : result A) (f : A -> result B) b :
  rbind r f = Ok b -> exists a, r = Ok a /\ f a = Ok b.
Proof. destruct r as [a|e]; simpl; [eauto | discriminate]. Qed.

Lemma bind_ok {A B} (c : M A) (f : A -> M B) t a t' :
  c t = (Ok a, t') -> bind c f t = f a t'.
Proof. unfold bind. now intros ->. Qed.

Lemma bind_err {A B} (c : M A) (f : A -> M B) t e t' :
  c t = (Err e, t') -> bind c f t = (Err e, t').
Proof. unfold bind. now intros ->. Qed.

Lemma bind_inv {A B} (c : M A) (f : A -> M B) t b t' :
  bind c f t = (Ok b, t') -> exists a t1, c t = (Ok a, t1) /\ f a t1 = (Ok b, t').
Proof.
  unfold bind. destruct (c t) as [[a|e] t1]; [eauto | discriminate].
Qed.

Lemma bind_lift {A B} (r : result A) (f : A -> M B) t :
  bind (lift r) f t = match r with Ok a => f a t | Err e => (Err e, t) end.
Proof. reflexivity. Qed.

Lemma bind_emit {B} (e : event) (f : unit -> M B) t :
  bind (emit e) f t = f tt (t ++ [e]).
Proof. reflexivity. Qed.

Lemma framed_ret {A} (a : A) : framed (ret a).
Proof. intro t. unfold ret. simpl. now rewrite app_nil_r. Qed.

Lemma framed_raise {A} (e : exn) : framed (@raise A e).
Proof. intro t. unfold raise. simpl. now rewrite app_nil_r. Qed.

Lemma framed_lift {A} (r : result A) : framed (lift r).
Proof. intro t. unfold lift. simpl. now rewrite app_nil_r. Qed.

Lemma framed_emit (e : event) : framed (emit e).
Proof. intro t. reflexivity. Qed.

Lemma framed_bind {A B} (c : M A) (f : A -> M B) :
  framed c -> (forall a, framed (f a)) -> framed (bind c f).
Proof.
  intros Hc Hf t. unfold bind. rewrite (Hc t).
  destruct (c []) as [[a|e] evs]; simpl; [|reflexivity].
  rewrite (Hf a (t ++ evs)), (Hf a evs). simpl. now rewrite app_assoc.
Qed.

Lemma framed_when (b : bool) (c : M unit) : framed c -> framed (when b c).
Proof. destruct b; simpl; [trivial | intros _; apply framed_ret]. Qed.

Lemma framed_if {A} (b : bool) (c1 c2 : M A) :
  framed c1 -> framed c2 -> framed (if b then c1 else c2).
Proof. now destruct b. Qed.

(** Computations that answer alike from every trace. *)
Lemma bind_ext {A B} (c1 c2 : M A) (f1 f2 : A -> M B) :
  (forall t, c1 t = c2 t) -> (forall a t, f1 a t = f2 a t) ->
  forall t, bind c1 f1 t = bind c2 f2 t.
Proof.
  intros Hc Hf t. unfold bind. rewrite Hc.
  destruct (c2 t) as [[a|e] t']; [apply Hf | reflexivity].
Qed.

Lemma rmap_ext {A B} (f g : A -> result B) (l : list A) :
  (forall x, f x = g x) -> rmap f l = rmap g l.
Proof.
  intro H. induction l as [|x l IH]; simpl; [reflexivity|].
  now rewrite H, IH.
Qed.

Lemma rmap_length {A B} (f : A -> result B) (l : list A) l' :
  rmap f l = Ok l' -> length l' = length l.
Proof.
  revert l'. induction l as [|x l IH]; simpl; intros l' H.
  - now inversion H.
  - destruct (f x) as [y|]; [|discriminate]. simpl in H.
    destruct (rmap f l) as [ys|]; [|discriminate]. simpl in H.
    inversion H. simpl. now rewrite (IH ys).
Qed.

Lemma rmap_Forall {A B} (f : A -> result B) (P : B -> Prop) (l : list A) l' :
  (forall x y, f x = Ok y -> P y) -> rmap f l = Ok l' -> Forall P l'.
Proof.
  intro Hf. revert l'. induction l as [|x l IH]; simpl; intros l' H.
  - inversion H. constructor.
  - destruct (f x) as [y|] eqn:E; [|discriminate]. simpl in H.
    destruct (rmap f l) as [ys|]; [|discriminate]. simpl in H.
    inversion H. constructor; eauto.
Qed.

(** Screen lines of computations. *)
Lemma screen_lines_app (a b : list event) :
  screen_lines (a ++ b) = screen_lines a ++ screen_lines b.
Proof.
  induction a as [|e a IH]; simpl; [reflexivity|].
  destruct e; simpl; now rewrite IH.
Qed.

Lemma silent_ret {A} (a : A) : silent (ret a).
Proof. intro t. exists []. simpl. now rewrite app_nil_r. Qed.

Lemma silent_raise {A} (e : exn) : silent (@raise A e).
Proof. intro t. exists []. simpl. now rewrite app_nil_r. Qed.

Lemma silent_lift {A} (r : result A) : silent (lift r).
Proof. intro t. exists []. simpl. now rewrite app_nil_r. Qed.

Lemma prints_weaken {A} (P Q : list string -> Prop) (c : M A) :
  (forall lines, P lines -> Q lines) -> prints P c -> prints Q c.
Proof. intros HPQ Hc t. destruct (Hc t) as (evs & E & HP). eauto. Qed.

(** Lines printed by [c] followed by [f], when one of the two is silent. *)
Lemma prints_bind_l {A B} (P : list string -> Prop) (c : M A) (f : A -> M B) :
  prints P c -> (forall a, silent (f a)) -> prints P (bind c f).
Proof.
  intros Hc Hf t. unfold bind. destruct (Hc t) as (e1 & E1 & H1).
  destruct (c t) as [[a|e] t1]; simpl in E1; subst t1.
  - destruct (Hf a (t ++ e1)) as (e2 & E2 & H2). exists (e1 ++ e2).
    rewrite E2, app_assoc, screen_lines_app, H2, app_nil_r. auto.
  - exists e1. auto.
Qed.

Lemma prints_bind_r {A B} (P : list string -> Prop) (c : M A) (f : A -> M B) :
  P [] -> silent c -> (forall a, prints P (f a)) -> prints P (bind c f).
Proof.
  intros HP Hc Hf t. unfold bind. destruct (Hc t) as (e1 & E1 & H1).
  destruct (c t) as [[a|e] t1]; simpl in E1; subst t1.
  - destruct (Hf a (t ++ e1)) as (e2 & E2 & H2). exists (e1 ++ e2).
    rewrite E2, app_assoc, screen_lines_app, H1. auto.
  - exists e1. simpl. rewrite H1. auto.
Qed.

Lemma silent_bind {A B} (c : M A) (f : A -> M B) :
  silent c -> (forall a, silent (f a)) -> silent (bind c f).
Proof. intros Hc Hf. now apply prints_bind_l. Qed.

Create HintDb framed.
#[export] Hint Resolve framed_ret framed_raise framed_lift framed_emit
  framed_when : framed.

End EffFacts.

(* ================================================================== *)
(** ** The playlist path                                                *)
(* ================================================================== *)

Section Playlist.
Import Py Re Eff LiTVIE Obs EffFacts.
Local Arguments String.append : simpl never.

(** The comprehension of lines 61-65 over episodes that carry a URL. *)
Lemma all_episodes_urls (h : Host) (eps : list value) (urls : list string) :
  Forall2 (fun ep u => subscript ep "url" = Ok (VStr u)) eps urls ->
  rmap (fun episode =>
          episode_url <~ subscript episode "url" ;;
          match episode_url with
          | VStr u =>
              Ok (url_result (smuggle_url h u (VDict [("force_noplaylist", VBool true)])))
          | _ => Err TypeError
          end) eps
  = Ok (map (fun u => UrlResult (smuggle_url h u (VDict [("force_noplaylist", VBool true)])))
            urls).
Proof.
  induction 1 as [|ep u eps urls Hu _ IH]; simpl; [reflexivity|].
  rewrite Hu. simpl. rewrite IH. reflexivity.
Qed.

Lemma extract_playlist_ok (h : Host) (eps : list value) (urls : list string)
    (video_id : string) (program_info title content_id : value) (prompt : bool)
    (t : list event) :
  subscript program_info "title" = Ok title ->
  subscript program_info "contentId" = Ok content_id ->
  Forall2 (fun ep u => subscript ep "url" = Ok (VStr u)) eps urls ->
  _extract_playlist h (VList eps) video_id program_info prompt t
    = (Ok (PlaylistResult
             (map (fun u => UrlResult
                     (smuggle_url h u (VDict [("force_noplaylist", VBool true)]))) urls)
             content_id title),
       t ++ (if prompt then [ToScreen (playlist_notice h content_id video_id)] else [])).
Proof.
  intros Htitle Hcid Hurls. unfold _extract_playlist.
  rewrite bind_lift, Htitle, bind_lift, Hcid.
  cbn [iterate rbind]. rewrite (all_episodes_urls h _ _ Hurls).
  unfold playlist_notice, when, to_screen, playlist_result.
  destruct prompt; cbn; [reflexivity | now rewrite app_nil_r].
Qed.

Lemma extract_playlist_key_error (h : Host) (episodes_list : value)
    (video_id : string) (d : list (string * value)) (prompt : bool) (t : list event) :
  lookup "title" d = None \/ lookup "contentId" d = None ->
  exists key,
    _extract_playlist h episodes_list video_id (VDict d) prompt t
      = (Err (KeyError key), t) /\
    (key = "title" \/ key = "contentId") /\
    (d = [] -> key = "title").
Proof.
  intro Hmiss. unfold _extract_playlist. rewrite bind_lift. cbn [subscript].
  destruct (lookup "title" d) as [title|] eqn:Et.
  - destruct Hmiss as [Hmiss|Hmiss]; [discriminate|].
    rewrite bind_lift, Hmiss. exists "contentId". repeat split; auto.
    intros ->. discriminate.
  - exists "title". repeat split; auto.
Qed.

(** C2 (amended). On a page whose episode list is not empty, whose entries
    each carry a [url] string, and whose [programInfo] carries [title] and
    [contentId], a call in playlist mode returns a playlist with one entry per
    episode, in the order of the list, each entry being the episode's URL with
    [force_noplaylist = True] smuggled in, and with the program's [contentId]
    and [title] as id and title.  The only line printed is the playlist
    notice, and only when the call is not a recursive one. *)
Theorem C2_playlist_of_episodes (h : Host) (url : string) (t t1 : list event)
    (c : locals) (eps : list value) (urls : list string) (title content_id : value) :
  read_page h url t = (Ok c, t1) ->
  l_episodes_list c = VList eps -> eps <> [] ->
  truthy (l_noplaylist c) = false ->
  subscript (l_program_info c) "title" = Ok title ->
  subscript (l_program_info c) "contentId" = Ok content_id ->
  Forall2 (fun ep u => subscript ep "url" = Ok (VStr u)) eps urls ->
  let entries :=
    map (fun u => UrlResult (smuggle_url h u (VDict [("force_noplaylist", VBool true)])))
        urls in
  _real_extract h url t
    = (Ok (PlaylistResult entries content_id title),
       t1 ++ (if l_noplaylist_prompt c
              then [ToScreen (playlist_notice h content_id (l_video_id c))]
              else [])) /\
  length entries = length eps.
Proof.
  intros Hpage Heps Hne Hnp Htitle Hcid Hurls entries. split.
  - unfold _real_extract. rewrite (bind_ok _ _ _ _ _ Hpage).
    unfold playlist_branch. rewrite Heps, Hnp.
    replace (truthy (VList eps)) with true
      by (destruct eps; [contradiction | reflexivity]).
    cbn [negb].
    rewrite (bind_ok _ _ _ _ _
               (bind_ok _ _ _ _ _
                  (extract_playlist_ok h eps urls _ _ _ _ _ t1 Htitle Hcid Hurls))).
    reflexivity.
  - subst entries. rewrite length_map. symmetry. eapply Forall2_length, Hurls.
Qed.

Lemma C2_playlist_of_episodes_witness :
  _real_extract Sample.playlist_host Sample.url []
    = (Ok (PlaylistResult
             (map (fun u => UrlResult (smuggle_url Sample.playlist_host u Sample.smuggled))
                  Sample.episode_urls)
             (VStr "VOD00037490") (VStr "Drama")),
       Sample.page_read
         ++ [ToScreen (playlist_notice Sample.playlist_host (VStr "VOD00037490")
                         Sample.video_id)]) /\
  length (map (fun u => UrlResult (smuggle_url Sample.playlist_host u Sample.smuggled))
              Sample.episode_urls)
    = length Sample.episode_entries.
Proof.
  refine (C2_playlist_of_episodes Sample.playlist_host Sample.url []
            Sample.page_read
            (Sample.locals_of VNone true Sample.program_info Sample.episodes)
            Sample.episode_entries Sample.episode_urls
            (VStr "Drama") (VStr "VOD00037490") _ _ _ _ _ _ _).
  - vm_compute. reflexivity.
  - reflexivity.
  - discriminate.
  - reflexivity.
  - reflexivity.
  - reflexivity.
  - repeat constructor.
Defined.

(** C2 as stated fails on a page that embeds an episode list and no
    [programInfo]: the call is in playlist mode, the list has two entries, and
    the call ends with [KeyError] instead of a playlist. *)
Lemma C2_counterexample :
  exists c t1 eps,
    read_page Sample.bare_list_host Sample.url [] = (Ok c, t1) /\
    l_episodes_list c = VList eps /\ length eps = 2 /\
    truthy (l_noplaylist c) = false /\
    _real_extract Sample.bare_list_host Sample.url [] = (Err (KeyError "title"), t1) /\
    forall entries playlist_id playlist_title t',
      _real_extract Sample.bare_list_host Sample.url []
        <> (Ok (PlaylistResult entries playlist_id playlist_title), t').
Proof.
  eexists _, _, _. split; [vm_compute; reflexivity|].
  repeat split; try reflexivity.
  intros entries pid ptitle t'. vm_compute. discriminate.
Qed.

(** C10. On the playlist path (episode list not empty, playlist mode active)
    a [programInfo] object without [title] or without [contentId], as the
    empty object the parse falls back to, ends the call with the [KeyError]
    of the missing key, which is none of the error kinds of the
    specification; nothing is printed before it. *)
Theorem C10_playlist_needs_title_and_contentId (h : Host) (url : string)
    (t t1 : list event) (c : locals) (d : list (string * value)) :
  read_page h url t = (Ok c, t1) ->
  truthy (l_episodes_list c) = true ->
  truthy (l_noplaylist c) = false ->
  l_program_info c = VDict d ->
  lookup "title" d = None \/ lookup "contentId" d = None ->
  exists key,
    _real_extract h url t = (Err (KeyError key), t1) /\
    (key = "title" \/ key = "contentId") /\
    (d = [] -> key = "title") /\
    error_kind (KeyError key) = None /\
    error_kind (KeyError key) <> Some ParseFailure.
Proof.
  intros Hpage Heps Hnp Hpi Hmiss.
  unfold _real_extract. rewrite (bind_ok _ _ _ _ _ Hpage).
  unfold playlist_branch. rewrite Heps, Hnp. cbn [negb].
  rewrite Hpi.
  destruct (extract_playlist_key_error h (l_episodes_list c) (l_video_id c) d
              (l_noplaylist_prompt c) t1 Hmiss) as (key & Hrun & Hkey & Hempty).
  exists key. rewrite (bind_err _ _ _ _ _ (bind_err _ _ _ _ _ Hrun)).
  repeat split; auto; discriminate.
Qed.

Lemma C10_playlist_needs_title_and_contentId_witness :
  exists key,
    _real_extract Sample.bare_list_host Sample.url []
      = (Err (KeyError key), Sample.page_read) /\
    (key = "title" \/ key = "contentId") /\
    (@nil (string * value) = [] -> key = "title") /\
    error_kind (KeyError key) = None /\
    error_kind (KeyError key) <> Some ParseFailure.
Proof.
  refine (C10_playlist_needs_title_and_contentId Sample.bare_list_host Sample.url []
            Sample.page_read
            (Sample.locals_of VNone true (VDict []) Sample.episodes)
            [] _ _ _ _ _).
  - vm_compute. reflexivity.
  - reflexivity.
  - reflexivity.
  - reflexivity.
  - left. reflexivity.
Defined.

End Playlist.

(* ================================================================== *)
(** ** The single-video path                                            *)
(* ================================================================== *)

Section SingleVideo.
Import Py Re Eff LiTVIE Obs EffFacts.
Local Arguments String.append : simpl never.

Variable h : Host.

Lemma is_str_eq (k : string) (v : value) : is_str k v = true <-> v = VStr k.
Proof.
  destruct v; simpl; split; try discriminate.
  - intro H. apply String.eqb_eq in H. now subst.
  - intro H. inversion H. apply String.eqb_refl.
Qed.

Lemma lookup_dict_set (k : string) (v : value) (d : list (string * value)) :
  lookup k (dict_set k v d) = Some v.
Proof.
  induction d as [|[k' v'] d IH]; simpl.
  - now rewrite String.eqb_refl.
  - destruct (String.eqb k' k) eqn:E; simpl.
    + now rewrite String.eqb_refl.
    + now rewrite E.
Qed.

Lemma no_compression_spec (a_format a_format' : value) :
  no_compression a_format = Ok a_format' -> no_compression_forced a_format'.
Proof.
  unfold no_compression. destruct a_format as [| | | | |d]; try discriminate.
  destruct (match lookup "http_headers" d with Some hd => hd | None => VDict [] end)
    as [| | | | |hd]; try discriminate.
  intro H. inversion H; subst a_format'.
  eexists _, _. split; [reflexivity|]. split; apply lookup_dict_set.
Qed.

(** A playlist is the only thing the early return gives back. *)
Lemma playlist_branch_early (c : locals) (t t' : list event) (x : info) :
  playlist_branch h c t = (Ok (Some x), t') ->
  truthy (l_noplaylist c) = false /\
  exists entries playlist_id playlist_title,
    x = PlaylistResult entries playlist_id playlist_title.
Proof.
  unfold playlist_branch.
  destruct (truthy (l_episodes_list c)); [|discriminate].
  destruct (truthy (l_noplaylist c)); cbn [negb].
  - intro H. apply bind_inv in H as (? & ? & _ & H). discriminate.
  - intro H. split; [reflexivity|].
    apply bind_inv in H as (pl & t1 & H & Hret). inversion Hret; subst; clear Hret.
    unfold _extract_playlist in H.
    apply bind_inv in H as (title & ? & _ & H).
    apply bind_inv in H as (cid & ? & _ & H).
    apply bind_inv in H as (? & ? & _ & H).
    apply bind_inv in H as (entries & ? & _ & H).
    inversion H. now eexists _, _, _.
Qed.

(** What a call on the single-video path still has to do (lines 108-151). *)
Lemma single_video_unfold (video_id webpage : string) (program_info : value)
    (t : list event) :
  single_video h video_id webpage program_info t
  = (program_info' <- program_info_step h video_id program_info ;;
     video_data <- video_data_step h video_id webpage program_info' ;;
     require_fullpath h video_data ;;
     build_result h video_id program_info' video_data) t.
Proof. reflexivity. Qed.

Lemma real_extract_single (url : string) (t t1 t2 : list event) (c : locals) :
  read_page h url t = (Ok c, t1) ->
  playlist_branch h c t1 = (Ok None, t2) ->
  _real_extract h url t
  = single_video h (l_video_id c) (l_webpage c) (l_program_info c) t2.
Proof.
  intros Hpage Hbranch. unfold _real_extract.
  rewrite (bind_ok _ _ _ _ _ Hpage), (bind_ok _ _ _ _ _ Hbranch). reflexivity.
Qed.

Lemma real_extract_on_single_path (url : string) (t t3 : list event) (c : locals)
    (program_info : value) :
  on_single_path h url t c program_info t3 ->
  _real_extract h url t
  = (video_data <- video_data_step h (l_video_id c) (l_webpage c) program_info ;;
     require_fullpath h video_data ;;
     build_result h (l_video_id c) program_info video_data) t3.
Proof.
  intros (t1 & t2 & Hpage & Hbranch & Hinfo).
  rewrite (real_extract_single _ _ _ _ _ Hpage Hbranch), single_video_unfold.
  now rewrite (bind_ok _ _ _ _ _ Hinfo).
Qed.

Lemma real_extract_at_video_data (url : string) (t t4 : list event) (c : locals)
    (program_info video_data : value) :
  reaches_video_data h url t c program_info video_data t4 ->
  _real_extract h url t
  = (require_fullpath h video_data ;;
     build_result h (l_video_id c) program_info video_data) t4.
Proof.
  intros (t3 & Hpath & Hdata).
  rewrite (real_extract_on_single_path _ _ _ _ _ Hpath).
  now rewrite (bind_ok _ _ _ _ _ Hdata).
Qed.

Lemma lift_inv {A} (r : result A) (t t' : list event) (a : A) :
  lift r t = (Ok a, t') -> r = Ok a /\ t' = t.
Proof. unfold lift. intro H. inversion H. auto. Qed.

Lemma metadata_video (video_id : string) (formats : list value) (program_info : value)
    (x : info) :
  metadata h video_id formats program_info = Ok x ->
  exists r, x = Video r /\ r_id r = video_id /\ r_formats r = formats.
Proof.
  unfold metadata. intro H.
  repeat (apply rbind_inv in H as (? & _ & H)).
  inversion H. eexists. repeat split.
Qed.

(** The single-video path returns the record of one video, with the headers
    of every format forced. *)
Lemma single_video_video (video_id webpage : string) (program_info : value)
    (t t' : list event) (x : info) :
  single_video h video_id webpage program_info t = (Ok x, t') ->
  exists r, x = Video r /\ r_id r = video_id /\
            Forall no_compression_forced (r_formats r).
Proof.
  unfold single_video. intro H.
  apply bind_inv in H as (program_info' & t1 & _ & H).
  apply bind_inv in H as (video_data & t2 & _ & H).
  apply bind_inv in H as (? & t3 & _ & H).
  unfold build_result in H.
  apply bind_inv in H as (m3u8_url & t4 & _ & H).
  apply bind_inv in H as (formats & t5 & _ & H).
  apply bind_inv in H as (formats' & t6 & Hforce & H).
  apply lift_inv in Hforce as [Hforce _].
  apply lift_inv in H as [H _].
  apply metadata_video in H as (r & -> & Hid & Hformats).
  exists r. repeat split; [assumption|]. rewrite Hformats.
  eapply rmap_Forall; [|exact Hforce]. intros a a'. apply no_compression_spec.
Qed.

(** How line 74-78 settle the playlist intent. *)
Lemma read_page_intent (url : string) (t t1 : list event) (c : locals) :
  read_page h url t = (Ok c, t1) ->
  exists u data forced,
    unsmuggle_url h url = Ok (u, data) /\
    contains "force_noplaylist" data = Ok forced /\
    l_noplaylist_prompt c = negb forced /\
    (if forced then subscript data "force_noplaylist" = Ok (l_noplaylist c)
     else l_noplaylist c = noplaylist_param h).
Proof.
  unfold read_page. intro H.
  apply bind_inv in H as ([u data] & t0 & Hu & H). apply lift_inv in Hu as [Hu _].
  apply bind_inv in H as (video_id & ? & _ & H).
  apply bind_inv in H as (forced & ? & Hf & H). apply lift_inv in Hf as [Hf _].
  apply bind_inv in H as (intent & ? & Hi & H).
  apply bind_inv in H as (webpage & ? & _ & H).
  apply bind_inv in H as (program_info & ? & _ & H).
  apply bind_inv in H as (episodes_list & ? & _ & H).
  inversion H; subst c; clear H. cbn [l_noplaylist l_noplaylist_prompt].
  exists u, data, forced. cbn [fst snd] in *. repeat split; try assumption.
  - destruct forced.
    + apply bind_inv in Hi as (v & ? & _ & Hi). now inversion Hi.
    + now inversion Hi.
  - destruct forced.
    + apply bind_inv in Hi as (v & ? & Hv & Hi). apply lift_inv in Hv as [Hv _].
      now inversion Hi.
    + now inversion Hi.
Qed.

(** The payload of line 112 is built before the request is made: a field
    missing from [program_info] ends the step there. *)
Lemma video_data_step_missing_field (video_id webpage : string)
    (d : list (string * value)) (embedded : value) (t : list event) :
  _parse_json h (_search_regex h VIDEO_DATA_RE webpage "video data" "{}") video_id
    = Ok embedded ->
  truthy embedded = false ->
  lookup "assetId" d = None \/ lookup "watchDevices" d = None \/
    lookup "contentType" d = None ->
  exists key, video_data_step h video_id webpage (VDict d) t = (Err (KeyError key), t).
Proof.
  intros Hparse Hfalse Hmiss. unfold video_data_step.
  rewrite bind_lift, Hparse, Hfalse. cbn [negb]. rewrite bind_lift. cbn [subscript].
  destruct (lookup "assetId" d); [|now eexists]. cbn [rbind].
  destruct (lookup "watchDevices" d); [|now eexists]. cbn [rbind].
  destruct (lookup "contentType" d); [|now eexists].
  destruct Hmiss as [H|[H|H]]; discriminate.
Qed.



End SingleVideo.

Section SingleVideoClaims.
Import Py Re Eff LiTVIE Obs EffFacts.
Local Arguments String.append : simpl never.

(** C6. On the single-video path the request to [getProgramInfo], keyed by
    the content id, is issued exactly when the [programInfo] object of the page
    has no [assetId]: with the key the step emits nothing and keeps the
    object; without it the step emits the one request, and the answer is the
    [program_info] of everything that follows, the payload of the manifest
    fallback and the metadata alike. *)
Theorem C6_program_info_fallback (h : Host) (url : string) (t t1 t2 : list event)
    (c : locals) (d : list (string * value)) :
  read_page h url t = (Ok c, t1) ->
  playlist_branch h c t1 = (Ok None, t2) ->
  l_program_info c = VDict d ->
  let video_id := l_video_id c in
  let answer :=
    json_response h "https://www.litv.tv/vod/ajax/getProgramInfo" video_id
      [("contentId", video_id)] None [("Accept", "application/json")] in
  let later program_info :=
    (video_data <- video_data_step h video_id (l_webpage c) program_info ;;
     require_fullpath h video_data ;;
     build_result h video_id program_info video_data) in
  (lookup "assetId" d = None ->
     program_info_step h video_id (VDict d) t2
       = (answer, t2 ++ [program_info_request video_id]) /\
     (forall program_info, answer = Ok program_info ->
        _real_extract h url t
          = later program_info (t2 ++ [program_info_request video_id])) /\
     (forall e, answer = Err e ->
        _real_extract h url t = (Err e, t2 ++ [program_info_request video_id]))) /\
  (forall a, lookup "assetId" d = Some a ->
     program_info_step h video_id (VDict d) t2 = (Ok (VDict d), t2) /\
     _real_extract h url t = later (VDict d) t2).
Proof.
  intros Hpage Hbranch Hpi video_id answer later.
  pose proof (real_extract_single h _ _ _ _ _ Hpage Hbranch) as Hrun.
  rewrite single_video_unfold, Hpi in Hrun. fold video_id in Hrun.
  split.
  - intro Hnone.
    assert (Hstep : program_info_step h video_id (VDict d) t2
                    = (answer, t2 ++ [program_info_request video_id])).
    { unfold program_info_step. rewrite bind_lift. cbn [contains]. rewrite Hnone.
      reflexivity. }
    split; [exact Hstep|]. split.
    + intros program_info Hans. rewrite Hans in Hstep.
      now rewrite Hrun, (bind_ok _ _ _ _ _ Hstep).
    + intros e Hans. rewrite Hans in Hstep.
      now rewrite Hrun, (bind_err _ _ _ _ _ Hstep).
  - intros a Hsome.
    assert (Hstep : program_info_step h video_id (VDict d) t2 = (Ok (VDict d), t2)).
    { unfold program_info_step. rewrite bind_lift. cbn [contains]. rewrite Hsome.
      reflexivity. }
    split; [exact Hstep|].
    now rewrite Hrun, (bind_ok _ _ _ _ _ Hstep).
Qed.

(** C5 (amended). On the single-video path the video data is first what the page
    embeds in its [uiHlsUrl] assignment.  When that is not empty, no request is
    made and it is the video data used afterwards.  When it is empty, and
    [program_info] has the three fields of the payload, the one request to
    [getMainUrlNoAuth] is issued, with a body (which makes it a POST) that is
    the dump of exactly [{assetId, watchDevices, contentType}] taken from
    [program_info], and its answer is the video data used afterwards. *)
Theorem C5_video_data_fallback (h : Host) (url : string) (t t3 : list event)
    (c : locals) (program_info embedded : value) :
  on_single_path h url t c program_info t3 ->
  _parse_json h (_search_regex h VIDEO_DATA_RE (l_webpage c) "video data" "{}")
    (l_video_id c) = Ok embedded ->
  let video_id := l_video_id c in
  let later video_data :=
    (require_fullpath h video_data ;;
     build_result h video_id program_info video_data) in
  (truthy embedded = true ->
     video_data_step h video_id (l_webpage c) program_info t3 = (Ok embedded, t3) /\
     _real_extract h url t = later embedded t3) /\
  (truthy embedded = false ->
   forall assetId watchDevices contentType,
     subscript program_info "assetId" = Ok assetId ->
     subscript program_info "watchDevices" = Ok watchDevices ->
     subscript program_info "contentType" = Ok contentType ->
     let request := main_url_request h video_id assetId watchDevices contentType in
     let answer :=
       json_response h "https://www.litv.tv/vod/ajax/getMainUrlNoAuth" video_id []
         (Some (json_dumps h (VDict [("assetId", assetId);
                                     ("watchDevices", watchDevices);
                                     ("contentType", contentType)])))
         [("Content-Type", "application/json")] in
     video_data_step h video_id (l_webpage c) program_info t3
       = (answer, t3 ++ [request]) /\
     (forall video_data, answer = Ok video_data ->
        _real_extract h url t = later video_data (t3 ++ [request])) /\
     (forall e, answer = Err e ->
        _real_extract h url t = (Err e, t3 ++ [request]))).
Proof.
  intros Hpath Hparse video_id later.
  pose proof (real_extract_on_single_path h _ _ _ _ _ Hpath) as Hrun.
  fold video_id in Hrun. split.
  - intro Htrue.
    assert (Hstep : video_data_step h video_id (l_webpage c) program_info t3
                    = (Ok embedded, t3)).
    { unfold video_data_step. rewrite bind_lift. subst video_id. rewrite Hparse, Htrue.
      reflexivity. }
    split; [exact Hstep|]. now rewrite Hrun, (bind_ok _ _ _ _ _ Hstep).
  - intros Hfalse assetId watchDevices contentType Ha Hw Hc request answer.
    assert (Hstep : video_data_step h video_id (l_webpage c) program_info t3
                    = (answer, t3 ++ [request])).
    { unfold video_data_step. rewrite bind_lift. subst video_id. rewrite Hparse, Hfalse.
      cbn [negb]. rewrite bind_lift, Ha. cbn [rbind]. rewrite Hw. cbn [rbind].
      rewrite Hc. cbn [rbind]. reflexivity. }
    split; [exact Hstep|]. split.
    + intros video_data Hans. rewrite Hans in Hstep.
      now rewrite Hrun, (bind_ok _ _ _ _ _ Hstep).
    + intros e Hans. rewrite Hans in Hstep.
      now rewrite Hrun, (bind_err _ _ _ _ _ Hstep).
Qed.

(** C1. When the call reaches line 122 with a video data object that has no
    [fullpath], it ends with an exception and nothing else: the
    geo-restriction signal naming Taiwan if [errorMessage] is the code
    [vod.error.outsideregionerror]; an expected [ExtractorError] whose message
    ends with the service's own message if [errorMessage] is any other value
    that is not empty; an unexpected [ExtractorError] otherwise. *)
Theorem C1_missing_fullpath (h : Host) (url : string) (t t4 : list event)
    (c : locals) (program_info : value) (d : list (string * value)) :
  reaches_video_data h url t c program_info (VDict d) t4 ->
  lookup "fullpath" d = None ->
  let error_msg := match lookup "errorMessage" d with Some v => v | None => VNone end in
  exists e,
    _real_extract h url t = (Err e, t4) /\
    (error_msg = VStr "vod.error.outsideregionerror" ->
       e = GeoRestrictedError "This video is available in Taiwan only" /\
       error_kind e = Some GeoRestricted) /\
    (error_msg <> VStr "vod.error.outsideregionerror" -> truthy error_msg = true ->
       e = ExtractorError (IE_NAME h ++ " said: " ++ str h error_msg) true /\
       error_kind e = Some RemoteError /\
       forall s, error_msg = VStr s ->
         e = ExtractorError (IE_NAME h ++ " said: " ++ s) true) /\
    (truthy error_msg = false ->
       e = ExtractorError ("Unexpected result from " ++ IE_NAME h) false /\
       error_kind e = Some UnexpectedResponse) /\
    (error_kind e = Some GeoRestricted \/ error_kind e = Some RemoteError \/
     error_kind e = Some UnexpectedResponse).
Proof.
  intros Hreach Hfull error_msg.
  rewrite (real_extract_at_video_data h _ _ _ _ _ _ Hreach).
  unfold require_fullpath. unfold bind at 1. rewrite bind_lift.
  cbn [get]. rewrite Hfull. cbn [truthy negb]. rewrite bind_lift. fold error_msg.
  unfold eq_str. destruct (is_str "vod.error.outsideregionerror" error_msg) eqn:Egeo.
  - apply is_str_eq in Egeo. eexists. split; [reflexivity|].
    split; [|split; [|split]].
    + intros _. split; reflexivity.
    + intro Hne. contradiction.
    + intro Hfalse. rewrite Egeo in Hfalse. discriminate.
    + left. reflexivity.
  - assert (Hne : error_msg <> VStr "vod.error.outsideregionerror").
    { intro E. apply is_str_eq in E. congruence. }
    destruct (truthy error_msg) eqn:Etruthy.
    + eexists. split; [reflexivity|]. split; [|split; [|split]].
      * intro E. contradiction.
      * intros _ _. split; [reflexivity|]. split; [reflexivity|].
        intros s ->. reflexivity.
      * discriminate.
      * right. left. reflexivity.
    + eexists. split; [reflexivity|]. split; [|split; [|split]].
      * intro E. contradiction.
      * intros _ Htrue. discriminate.
      * intros _. split; reflexivity.
      * right. right. reflexivity.
Qed.

(** C4. The formats of every record a call returns carry the header that
    disables compression: [http_headers] is a dictionary in which
    [Youtubedl-no-compression] is [True]. *)
Theorem C4_formats_no_compression (h : Host) (url : string) (t t' : list event)
    (r : ResultRecord) :
  _real_extract h url t = (Ok (Video r), t') ->
  Forall no_compression_forced (r_formats r).
Proof.
  unfold _real_extract. intro H.
  apply bind_inv in H as (c & t1 & _ & H).
  apply bind_inv in H as ([x|] & t2 & Hbranch & H).
  - inversion H; subst x.
    apply playlist_branch_early in Hbranch as (_ & ? & ? & ? & Hx). discriminate.
  - apply single_video_video in H as (r' & Hr & _ & Hformats).
    inversion Hr. assumption.
Qed.




End SingleVideoClaims.

Section SingleVideoRuns.
Import Py Re Eff LiTVIE Obs EffFacts Req.

(** A page without embedded data: the program info is requested. *)
Lemma C6_program_info_fallback_witness :
  program_info_step (Sample.bare_host Sample.video_data) Sample.video_id (VDict [])
    Sample.page_read
  = (Ok Sample.program_info,
     Sample.page_read ++ [program_info_request Sample.video_id]).
Proof.
  refine (proj1 (proj1 (C6_program_info_fallback (Sample.bare_host Sample.video_data)
                          Sample.url [] Sample.page_read Sample.page_read
                          (Sample.locals_of VNone true (VDict []) (VList []))
                          [] _ _ _) _)).
  - vm_compute. reflexivity.
  - vm_compute. reflexivity.
  - reflexivity.
  - reflexivity.
Defined.

(** The same page: the manifest URL is requested with the payload taken from
    the program info. *)
Lemma C5_video_data_fallback_witness :
  video_data_step (Sample.bare_host Sample.video_data) Sample.video_id "<html>"
    Sample.program_info (Sample.page_read ++ [program_info_request Sample.video_id])
  = (Ok Sample.video_data,
     (Sample.page_read ++ [program_info_request Sample.video_id])
       ++ [main_url_request (Sample.bare_host Sample.video_data) Sample.video_id
             (VStr "vod1") (VList [VStr "PC"]) (VStr "drama")]).
Proof.
  refine (proj1 (proj2 (C5_video_data_fallback (Sample.bare_host Sample.video_data)
                          Sample.url []
                          (Sample.page_read ++ [program_info_request Sample.video_id])
                          (Sample.locals_of VNone true (VDict []) (VList []))
                          Sample.program_info (VDict []) _ _) _
                   (VStr "vod1") (VList [VStr "PC"]) (VStr "drama") _ _ _)).
  - exists Sample.page_read, Sample.page_read. repeat split; vm_compute; reflexivity.
  - reflexivity.
  - reflexivity.
  - reflexivity.
  - reflexivity.
  - reflexivity.
Defined.

(** C5 as stated fails on a page whose program info has [assetId] and no
    [watchDevices]: the call is on the single-video path, the page embeds no
    video data, so the parse yields the empty object, and yet no request to
    [getMainUrlNoAuth] is made; the call ends with [KeyError] at line 114, the
    page being the only thing requested. *)
Lemma C5_counterexample :
  on_single_path asset_only_host Sample.url []
    (Sample.locals_of VNone true (VDict [("assetId", VStr "vod1")]) (VList []))
    (VDict [("assetId", VStr "vod1")]) Sample.page_read /\
  _parse_json asset_only_host
    (_search_regex asset_only_host VIDEO_DATA_RE "<html>" "video data" "{}")
    Sample.video_id = Ok (VDict []) /\
  truthy (VDict []) = false /\
  _real_extract asset_only_host Sample.url []
    = (Err (KeyError "watchDevices"), Sample.page_read) /\
  requests (snd (_real_extract asset_only_host Sample.url [])) = [0].
Proof.
  split; [|repeat split; vm_compute; reflexivity].
  exists Sample.page_read, Sample.page_read. repeat split; vm_compute; reflexivity.
Qed.

(** The service answers with the geo-restriction code. *)
Lemma C1_missing_fullpath_witness :
  exists e,
    _real_extract Sample.geo_blocked_host Sample.url []
    = (Err e, (Sample.page_read ++ [program_info_request Sample.video_id])
                ++ [main_url_request Sample.geo_blocked_host Sample.video_id
                      (VStr "vod1") (VList [VStr "PC"]) (VStr "drama")]) /\
    e = GeoRestrictedError "This video is available in Taiwan only".
Proof.
  destruct (C1_missing_fullpath Sample.geo_blocked_host Sample.url []
              ((Sample.page_read ++ [program_info_request Sample.video_id])
                 ++ [main_url_request Sample.geo_blocked_host Sample.video_id
                       (VStr "vod1") (VList [VStr "PC"]) (VStr "drama")])
              (Sample.locals_of VNone true (VDict []) (VList []))
              Sample.program_info
              [("errorMessage", VStr "vod.error.outsideregionerror")])
    as (e & Hrun & Hgeo & _).
  - exists (Sample.page_read ++ [program_info_request Sample.video_id]). split.
    + exists Sample.page_read, Sample.page_read.
      repeat split; vm_compute; reflexivity.
    + vm_compute. reflexivity.
  - reflexivity.
  - exists e. split; [exact Hrun | apply Hgeo; reflexivity].
Defined.


(** The two formats of the sample manifest, one of which came with headers. *)
Lemma C4_formats_no_compression_witness :
  Forall no_compression_forced Sample.forced_formats.
Proof.
  refine (C4_formats_no_compression Sample.playlist_host Sample.episode_url []
            (Sample.page_read ++ [Sample.manifest_request]) Sample.record _).
  vm_compute. reflexivity.
Defined.

(** The sample calls, run. *)
Example run_noplaylist :
  _real_extract Sample.noplaylist_host Sample.url []
  = (Ok (Video Sample.record),
     Sample.page_read ++ [ToScreen (single_notice Sample.video_id)]
       ++ [Sample.manifest_request]).
Proof. vm_compute. reflexivity. Qed.

Example run_smuggled_episode :
  _real_extract Sample.playlist_host Sample.episode_url []
  = (Ok (Video Sample.record), Sample.page_read ++ [Sample.manifest_request]).
Proof. vm_compute. reflexivity. Qed.

Example run_without_embedded_data :
  _real_extract (Sample.bare_host Sample.video_data) Sample.url []
  = (Ok (Video Sample.record),
     Sample.page_read ++ [program_info_request Sample.video_id]
       ++ [main_url_request (Sample.bare_host Sample.video_data) Sample.video_id
             (VStr "vod1") (VList [VStr "PC"]) (VStr "drama")]
       ++ [Sample.manifest_request]).
Proof. vm_compute. reflexivity. Qed.

Example run_remote_error :
  _real_extract (Sample.bare_host (VDict [("errorMessage", VStr "boom")])) Sample.url []
  = (Err (ExtractorError "LiTV said: boom" true),
     Sample.page_read ++ [program_info_request Sample.video_id]
       ++ [main_url_request (Sample.bare_host Sample.video_data) Sample.video_id
             (VStr "vod1") (VList [VStr "PC"]) (VStr "drama")]).
Proof. vm_compute. reflexivity. Qed.

End SingleVideoRuns.

(* ================================================================== *)
(** ** What a call prints and what it depends on                        *)
(* ================================================================== *)

Section CallEffects.
Import Py Re Eff LiTVIE Obs EffFacts.
Local Arguments String.append : simpl never.

Variable h : Host.

Ltac framed_tac :=
  repeat first
    [ apply framed_ret | apply framed_raise | apply framed_lift | apply framed_emit
    | apply framed_when
    | apply framed_bind; [|intros ?]
    | match goal with
      | |- framed (if ?b then _ else _) => destruct b
      | |- framed (match ?x with _ => _ end) => destruct x
      end ].

Lemma framed_extract_playlist episodes_list video_id program_info prompt :
  framed (_extract_playlist h episodes_list video_id program_info prompt).
Proof. unfold _extract_playlist, to_screen. framed_tac. Qed.

Lemma framed_read_page url : framed (read_page h url).
Proof. unfold read_page, _download_webpage. framed_tac. Qed.

Lemma framed_playlist_branch c : framed (playlist_branch h c).
Proof.
  unfold playlist_branch, to_screen. framed_tac.
Qed.

Lemma framed_single_video video_id webpage program_info :
  framed (single_video h video_id webpage program_info).
Proof.
  unfold single_video, program_info_step, video_data_step, require_fullpath,
    build_result, _download_json, _extract_m3u8_formats, raise_geo_restricted.
  framed_tac.
Qed.

Lemma framed_real_extract url : framed (_real_extract h url).
Proof.
  unfold _real_extract. apply framed_bind; [apply framed_read_page | intro c].
  apply framed_bind; [apply framed_playlist_branch | intros [playlist|]].
  - apply framed_ret.
  - apply framed_single_video.
Qed.

Lemma silent_request {A} (e : event) (r : result A) :
  screen_lines [e] = [] -> silent (emit e ;; lift r).
Proof.
  intros He t. exists [e]. unfold bind, emit, lift. simpl. auto.
Qed.

Ltac silent_tac :=
  repeat first
    [ apply silent_ret | apply silent_raise | apply silent_lift
    | apply silent_request; reflexivity
    | apply silent_bind; [|intros ?]
    | match goal with
      | |- silent (if ?b then _ else _) => destruct b
      | |- silent (match ?x with _ => _ end) => destruct x
      end ].

Lemma silent_read_page url : silent (read_page h url).
Proof. unfold read_page, _download_webpage. silent_tac. Qed.

Lemma silent_single_video video_id webpage program_info :
  silent (single_video h video_id webpage program_info).
Proof.
  unfold single_video, program_info_step, video_data_step, require_fullpath,
    build_result, _download_json, _extract_m3u8_formats, raise_geo_restricted.
  silent_tac.
Qed.

Lemma prints_to_screen (P : list string -> Prop) (line : string) :
  P [line] -> prints P (to_screen line).
Proof. intros HP t. exists [ToScreen line]. auto. Qed.

Lemma prints_playlist_branch c : prints (one_notice h c) (playlist_branch h c).
Proof.
  unfold playlist_branch.
  destruct (truthy (l_episodes_list c)); [|apply (prints_weaken (fun l => l = []));
    [now left | apply silent_ret]].
  destruct (truthy (l_noplaylist c)); cbn [negb].
  - apply prints_bind_l; [|intros; apply silent_ret].
    destruct (l_noplaylist_prompt c) eqn:Ep; cbn [when].
    + apply prints_to_screen. right. auto.
    + apply (prints_weaken (fun l => l = [])); [now left | apply silent_ret].
  - apply prints_bind_l; [|intros; apply silent_ret].
    unfold _extract_playlist.
    apply prints_bind_r; [now left | apply silent_lift | intro title].
    apply prints_bind_r; [now left | apply silent_lift | intro content_id].
    apply prints_bind_l; [|intros; silent_tac].
    destruct (l_noplaylist_prompt c) eqn:Ep; cbn [when].
    + apply prints_to_screen. right. split; [exact Ep|]. left.
      now exists content_id.
    + apply (prints_weaken (fun l => l = [])); [now left | apply silent_ret].
Qed.


End CallEffects.

Section HostAnswers.
Import Py Re Eff LiTVIE Obs EffFacts.
Local Arguments String.append : simpl never.

Variables h1 h2 : Host.
Hypothesis same : same_answers h1 h2.

Ltac host_rw :=
  repeat first
    [ rewrite (same_IE_NAME _ _ same) | rewrite (same_noplaylist _ _ same)
    | rewrite (same_repr _ _ same) | rewrite (same_json_dumps _ _ same)
    | rewrite (same_int_or_none _ _ same) | rewrite (same_smuggle _ _ same)
    | rewrite (same_unsmuggle _ _ same) | rewrite (same_search _ _ same)
    | rewrite (same_parse _ _ same) | rewrite (same_webpage _ _ same)
    | rewrite (same_json _ _ same) | rewrite (same_manifest _ _ same) ].

Ltac ext_tac :=
  repeat (cbv beta; host_rw;
          first
            [ reflexivity
            | apply bind_ext; [intros ? | intros ? ?]
            | match goal with
              | |- (if ?b then _ else _) _ = _ => destruct b
              end ]).

Lemma str_ext (v : value) : str h1 v = str h2 v.
Proof. destruct v; simpl; now host_rw. Qed.

Lemma extract_playlist_ext episodes_list video_id program_info prompt t :
  _extract_playlist h1 episodes_list video_id program_info prompt t
  = _extract_playlist h2 episodes_list video_id program_info prompt t.
Proof.
  unfold _extract_playlist. revert t.
  apply bind_ext; [reflexivity | intros title].
  apply bind_ext; [reflexivity | intros content_id].
  apply bind_ext; [now rewrite str_ext | intros _].
  apply bind_ext; [|reflexivity].
  intro t. unfold lift. f_equal.
  destruct (iterate episodes_list) as [eps|]; [|reflexivity]. simpl.
  apply rmap_ext. intro ep. destruct (subscript ep "url") as [[]|]; simpl;
    try reflexivity. now host_rw.
Qed.

Lemma read_page_ext url t : read_page h1 url t = read_page h2 url t.
Proof. unfold read_page, _download_webpage. revert t. ext_tac. Qed.

Lemma playlist_branch_ext c t : playlist_branch h1 c t = playlist_branch h2 c t.
Proof.
  unfold playlist_branch. revert t.
  destruct (truthy (l_episodes_list c)); [|reflexivity].
  destruct (truthy (l_noplaylist c)); cbn [negb]; [reflexivity|].
  apply bind_ext; [|reflexivity]. apply extract_playlist_ext.
Qed.

Lemma metadata_ext video_id formats program_info :
  metadata h1 video_id formats program_info = metadata h2 video_id formats program_info.
Proof.
  unfold metadata.
  repeat match goal with
         | |- rbind ?r _ = rbind ?r _ => destruct r; simpl; [|reflexivity]
         end.
  now host_rw.
Qed.

Lemma single_video_ext video_id webpage program_info t :
  single_video h1 video_id webpage program_info t
  = single_video h2 video_id webpage program_info t.
Proof.
  unfold single_video, program_info_step, video_data_step, require_fullpath,
    build_result, _download_json, _extract_m3u8_formats.
  revert t. ext_tac; unfold str; ext_tac.
  all: intros; rewrite metadata_ext; reflexivity.
Qed.

Lemma real_extract_ext url t : _real_extract h1 url t = _real_extract h2 url t.
Proof.
  unfold _real_extract. revert t.
  apply bind_ext; [apply read_page_ext | intros c].
  apply bind_ext; [apply playlist_branch_ext | intros [playlist|]].
  - reflexivity.
  - apply single_video_ext.
Qed.

End HostAnswers.

Section CallClaims.
Import Py Re Eff LiTVIE Obs EffFacts Req.
Local Arguments String.append : simpl never.

Lemma dict_set_twice (k : string) (v : value) (d : list (string * value)) :
  dict_set k v (dict_set k v d) = dict_set k v d.
Proof.
  induction d as [|[k' v'] d IH]; simpl.
  - now rewrite String.eqb_refl.
  - destruct (String.eqb k' k) eqn:E; simpl.
    + now rewrite String.eqb_refl.
    + now rewrite E, IH.
Qed.

(** Forcing the header on a format that already has it changes nothing: a
    manifest parser that hands out the same dictionaries twice is not seen. *)
Lemma no_compression_again (a_format a_format' : value) :
  no_compression a_format = Ok a_format' -> no_compression a_format' = Ok a_format'.
Proof.
  unfold no_compression at 1. destruct a_format as [| | | | |d]; try discriminate.
  destruct (match lookup "http_headers" d with Some hd => hd | None => VDict [] end)
    as [| | | | |hd]; try discriminate.
  intro H. inversion H; subst a_format'; clear H.
  unfold no_compression. rewrite lookup_dict_set, !dict_set_twice. reflexivity.
Qed.

Lemma rmap_no_compression_again (formats formats' : list value) :
  rmap no_compression formats = Ok formats' ->
  rmap no_compression formats' = Ok formats'.
Proof.
  revert formats'. induction formats as [|f fs IH]; simpl; intros formats' H.
  - now inversion H.
  - destruct (no_compression f) as [f'|] eqn:Ef; [|discriminate]. simpl in H.
    destruct (rmap no_compression fs) as [fs'|]; [|discriminate]. simpl in H.
    inversion H; subst formats'; clear H. simpl.
    now rewrite (no_compression_again _ _ Ef), (IH fs' eq_refl).
Qed.

Lemma treated_forcing (a_format a_format' : value) :
  treated a_format a_format' -> no_compression a_format' = no_compression a_format.
Proof.
  intros [-> | H]; [reflexivity|].
  now rewrite (no_compression_again _ _ H), H.
Qed.

Lemma rmap_treated (formats formats' : list value) :
  Forall2 treated formats formats' ->
  rmap no_compression formats' = rmap no_compression formats.
Proof.
  induction 1 as [|f f' fs fs' Hf _ IH]; simpl; [reflexivity|].
  now rewrite (treated_forcing _ _ Hf), IH.
Qed.

Lemma treated_in_place (formats : list value) :
  Forall2 treated formats (in_place formats).
Proof.
  induction formats as [|f fs IH]; simpl; [constructor|].
  destruct (no_compression f) as [f'|e] eqn:Ef.
  - constructor; [now right | exact IH].
  - constructor; [now left|]. clear. induction fs; constructor; [now left | assumption].
Qed.

Lemma treated_trans (f1 f2 f3 : value) :
  treated f1 f2 -> treated f2 f3 -> treated f1 f3.
Proof.
  intros [-> | H12] H23; [exact H23|].
  destruct H23 as [-> | H23]; [now right|].
  rewrite (no_compression_again _ _ H12) in H23. inversion H23; subst f3. now right.
Qed.

(** The parser of [h1] in the place of the one of [h2]. *)
Lemma same_objects_answers (h1 h2 : Host) :
  same_objects h1 h2 -> same_answers h1 (with_manifest (manifest_response h1) h2).
Proof.
  intros [? ? ? ? ? ? ? ? ? ? ? _]. constructor; cbn; auto.
Qed.

Lemma build_result_objects (h1 h2 : Host) (video_id : string)
    (program_info video_data : value) (t : list event) :
  same_objects h1 h2 ->
  build_result (with_manifest (manifest_response h1) h2) video_id program_info
    video_data t
  = build_result h2 video_id program_info video_data t.
Proof.
  intro Hso. unfold build_result. rewrite !bind_lift.
  destruct (subscript video_data "fullpath") as [m3u8_url|]; [|reflexivity].
  unfold _extract_m3u8_formats, bind, emit, lift. cbn [manifest_response with_manifest].
  pose proof (so_manifest _ _ Hso m3u8_url video_id "mp4" "m3u8_native" "hls") as Hm.
  destruct (manifest_response h1 m3u8_url video_id "mp4" "m3u8_native" "hls")
    as [formats|e].
  - destruct Hm as (formats' & -> & Htreated).
    rewrite (rmap_treated _ _ Htreated).
    destruct (rmap no_compression formats); reflexivity.
  - now rewrite Hm.
Qed.

Lemma real_extract_objects (h1 h2 : Host) (url : string) (t : list event) :
  same_objects h1 h2 ->
  _real_extract (with_manifest (manifest_response h1) h2) url t = _real_extract h2 url t.
Proof.
  intro Hso. unfold _real_extract. revert t.
  apply bind_ext; [reflexivity | intros c].
  apply bind_ext; [reflexivity | intros [playlist|]]; [reflexivity|].
  unfold single_video.
  apply bind_ext; [reflexivity | intros program_info].
  apply bind_ext; [reflexivity | intros video_data].
  apply bind_ext; [reflexivity | intros _].
  intro t. now apply build_result_objects.
Qed.

(** C8. A call keeps no state that a later call could see.  The one thing
    the source writes to is the format dictionaries the manifest parser hands
    out (line 135), in place; so let a second call be handed the same
    objects, each untouched or as earlier calls left it (a call that raised
    in the middle of the loop included), and let the collaborators answer as
    before.  Then the second call returns what the first returned and emits
    the same events, whatever was emitted before each of them; two successful
    calls therefore agree on [id], [title] and [episode_number].  What the
    loop leaves behind is of that kind, and stays so call after call. *)
Theorem C8_deterministic (h1 h2 : Host) (url : string) (t1 t2 : list event) :
  same_objects h1 h2 ->
  fst (_real_extract h1 url t1) = fst (_real_extract h2 url t2) /\
  (exists evs,
     snd (_real_extract h1 url t1) = t1 ++ evs /\
     snd (_real_extract h2 url t2) = t2 ++ evs) /\
  (forall r1 r2,
     fst (_real_extract h1 url t1) = Ok (Video r1) ->
     fst (_real_extract h2 url t2) = Ok (Video r2) ->
     r_id r1 = r_id r2 /\ r_title r1 = r_title r2 /\
     r_episode_number r1 = r_episode_number r2) /\
  (forall formats, Forall2 treated formats (in_place formats)) /\
  (forall f1 f2 f3, treated f1 f2 -> treated f2 f3 -> treated f1 f3).
Proof.
  intro Hso.
  assert (Hrun : forall t, _real_extract h1 url t = _real_extract h2 url t).
  { intro t.
    rewrite (real_extract_ext h1 _ (same_objects_answers h1 h2 Hso) url t).
    now apply real_extract_objects. }
  assert (Hfst : fst (_real_extract h1 url t1) = fst (_real_extract h2 url t2)).
  { rewrite (framed_real_extract h1 url t1), (framed_real_extract h2 url t2).
    cbn [fst]. now rewrite (Hrun []). }
  split; [exact Hfst|]. split; [|split; [|split]].
  - exists (snd (_real_extract h1 url [])).
    rewrite (framed_real_extract h1 url t1), (framed_real_extract h2 url t2).
    cbn [snd]. now rewrite (Hrun []).
  - intros r1 r2 H1 H2. rewrite Hfst, H2 in H1. now inversion H1.
  - exact treated_in_place.
  - exact treated_trans.
Qed.

(** A first call, and a second one handed the formats the first has
    written to. *)
Lemma C8_deterministic_witness :
  fst (_real_extract Sample.noplaylist_host Sample.url [])
  = fst (_real_extract second_call_host Sample.url
           (Sample.page_read ++ [ToScreen (single_notice Sample.video_id)]
              ++ [Sample.manifest_request])).
Proof.
  refine (proj1 (C8_deterministic Sample.noplaylist_host second_call_host
                   Sample.url []
                   (Sample.page_read ++ [ToScreen (single_notice Sample.video_id)]
                      ++ [Sample.manifest_request]) _)).
  constructor; try reflexivity.
  intros u v e p i. exists (in_place Sample.formats).
  split; [reflexivity|]. repeat constructor; right; reflexivity.
Defined.

(** The objects of the sample manifest after a call, and a loop that raises
    on its second format: the first is written to, the others are not. *)
Example in_place_sample : in_place Sample.formats = Sample.forced_formats.
Proof. reflexivity. Qed.

Example in_place_stops_where_the_loop_raises :
  in_place [VDict [("format_id", VStr "a")]; VDict [("http_headers", VNone)];
            VDict [("format_id", VStr "c")]]
  = [VDict [("format_id", VStr "a");
            ("http_headers", VDict [("Youtubedl-no-compression", VBool true)])];
     VDict [("http_headers", VNone)]; VDict [("format_id", VStr "c")]].
Proof. reflexivity. Qed.

Lemma one_notice_lines (h : Host) (c : locals) (lines : list string) :
  one_notice h c lines ->
  length lines <= 1 /\
  (lines = [] \/
   (exists content_id video_id, lines = [playlist_notice h content_id video_id]) \/
   (exists video_id, lines = [single_notice video_id])) /\
  (l_noplaylist_prompt c = false -> lines = []).
Proof.
  intros [-> | (Hprompt & [(content_id & ->) | ->])].
  - simpl. auto.
  - simpl. repeat split; [lia | right; left; eauto | congruence].
  - simpl. repeat split; [lia | right; right; eauto | congruence].
Qed.

(** C9. A call sends at most one line to the screen: either the playlist
    notice or the notice of the single video, never both, and none at all when
    [force_noplaylist] was smuggled in the URL. *)
Theorem C9_at_most_one_line (h : Host) (url : string) (t : list event) :
  exists evs,
    snd (_real_extract h url t) = t ++ evs /\
    length (screen_lines evs) <= 1 /\
    (screen_lines evs = [] \/
     (exists content_id video_id,
        screen_lines evs = [playlist_notice h content_id video_id]) \/
     (exists video_id, screen_lines evs = [single_notice video_id])) /\
    (forall u data,
       unsmuggle_url h url = Ok (u, data) ->
       contains "force_noplaylist" data = Ok true ->
       screen_lines evs = []).
Proof.
  unfold _real_extract, bind.
  destruct (silent_read_page h url t) as (e1 & E1 & S1).
  destruct (read_page h url t) as [[c|e] t1] eqn:Hpage; cbn [snd] in E1; subst t1.
  2:{ exists e1. cbn [snd]. rewrite S1. simpl. repeat split; auto. }
  destruct (prints_playlist_branch h c (t ++ e1)) as (e2 & E2 & N2).
  apply one_notice_lines in N2 as (Hlen & Hshape & Hoff).
  assert (Hforced : forall u data,
             unsmuggle_url h url = Ok (u, data) ->
             contains "force_noplaylist" data = Ok true ->
             screen_lines e2 = []).
  { intros u data Hu Hf. apply Hoff.
    destruct (read_page_intent h _ _ _ _ Hpage)
      as (u' & data' & forced & Hu' & Hf' & Hprompt & _).
    rewrite Hu in Hu'. inversion Hu'; subst u' data'.
    rewrite Hf in Hf'. inversion Hf'; subst forced. exact Hprompt. }
  destruct (playlist_branch h c (t ++ e1)) as [[[x|]|e] t2]; cbn [snd] in E2; subst t2.
  - exists (e1 ++ e2). unfold ret. cbn [snd].
    rewrite app_assoc, screen_lines_app, S1. auto.
  - destruct (silent_single_video h (l_video_id c) (l_webpage c) (l_program_info c)
                ((t ++ e1) ++ e2)) as (e3 & E3 & S3).
    exists (e1 ++ e2 ++ e3). rewrite E3.
    rewrite !screen_lines_app, S1, S3, app_nil_r, !app_assoc. auto.
  - exists (e1 ++ e2). cbn [snd].
    rewrite app_assoc, screen_lines_app, S1. auto.
Qed.

(** A call made for an episode of a playlist prints nothing. *)
Lemma C9_at_most_one_line_witness :
  exists evs,
    snd (_real_extract Sample.playlist_host Sample.episode_url []) = [] ++ evs /\
    screen_lines evs = [].
Proof.
  destruct (C9_at_most_one_line Sample.playlist_host Sample.episode_url [])
    as (evs & Hevs & _ & _ & Hforced).
  exists evs. split; [exact Hevs|].
  apply (Hforced Sample.url Sample.smuggled); reflexivity.
Defined.

End CallClaims.

(* ================================================================== *)
(** ** More on the URLs [_VALID_URL] accepts                            *)
(* ================================================================== *)

Section AcceptedUrls.
Import Py Re Eff LiTVIE Obs ReFacts.
Local Open Scope string_scope.

Lemma bt_cat {A} (r1 r2 : regex) (p : pos) (k : pos -> option A) :
  bt (Cat r1 r2) p k = bt r1 p (fun p' => bt r2 p' k).
Proof. reflexivity. Qed.

Lemma bt_lit_inv {A} (s : string) (p : pos) (k : pos -> option A) (m : A) :
  bt (Lit s) p k = Some m ->
  exists p', rest p = s ++ rest p' /\ k p' = Some m.
Proof.
  cbn [bt]. destruct (eat s (prev p) (rest p)) as [[pv rs]|] eqn:E; [|discriminate].
  apply eat_append in E. intro H. now exists (mkpos pv rs (groups p)).
Qed.

Lemma bt_opt_lit_inv {A} (s : string) (p : pos) (k : pos -> option A) (m : A) :
  bt (Opt (Lit s)) p k = Some m ->
  exists o p', (o = EmptyString \/ o = s) /\ rest p = o ++ rest p' /\ k p' = Some m.
Proof.
  cbn [bt]. destruct (eat s (prev p) (rest p)) as [[pv rs]|] eqn:E.
  - apply eat_append in E.
    destruct (k (mkpos pv rs (groups p))) as [m'|] eqn:Ek.
    + intro H. inversion H; subst m'.
      exists s, (mkpos pv rs (groups p)). auto.
    + intro H. exists EmptyString, p. auto.
  - intro H. exists EmptyString, p. auto.
Qed.

Lemma bt_alt_lit_inv {A} (a b : string) (p : pos) (k : pos -> option A) (m : A) :
  bt (Alt (Lit a) (Lit b)) p k = Some m ->
  exists o p', (o = a \/ o = b) /\ rest p = o ++ rest p' /\ k p' = Some m.
Proof.
  change (bt (Alt (Lit a) (Lit b)) p k)
    with (match bt (Lit a) p k with Some m => Some m | None => bt (Lit b) p k end).
  destruct (bt (Lit a) p k) as [m'|] eqn:E.
  - intro H. inversion H; subst m'. apply bt_lit_inv in E as (p' & Hr & Hk).
    exists a, p'. auto.
  - intro H. apply bt_lit_inv in H as (p' & Hr & Hk). exists b, p'. auto.
Qed.

Lemma greedy_star_inv {A} cs rs : forall pv g (k : pos -> option A) m,
  greedy_star cs pv rs g k = Some m ->
  exists p' w, k p' = Some m /\ rs = w ++ rest p' /\
               string_forall (in_cset cs) w = true.
Proof.
  induction rs as [|a rs IH]; simpl; intros pv g k m H.
  - exists (mkpos pv EmptyString g), EmptyString. auto.
  - destruct (in_cset cs a) eqn:Ea.
    + destruct (greedy_star cs (Some a) rs g k) as [m'|] eqn:E.
      * inversion H; subst m'. apply IH in E as (p' & w & Hk & -> & Hw).
        exists p', (String a w). simpl. rewrite Ea, Hw. auto.
      * exists (mkpos pv (String a rs) g), EmptyString. auto.
    + exists (mkpos pv (String a rs) g), EmptyString. auto.
Qed.

Lemma bt_plus_inv {A} cs (p : pos) (k : pos -> option A) (m : A) :
  bt (Plus cs) p k = Some m ->
  exists w p', w <> EmptyString /\ string_forall (in_cset cs) w = true /\
               rest p = w ++ rest p' /\ k p' = Some m.
Proof.
  cbn [bt]. destruct (rest p) as [|a rs]; [discriminate|].
  destruct (in_cset cs a) eqn:Ea; [|discriminate].
  intro H. apply greedy_star_inv in H as (p' & w & Hk & -> & Hw).
  exists (String a w), p'. simpl. rewrite Ea, Hw. repeat split; auto. discriminate.
Qed.

(** X1. Every URL the extractor accepts is a page of litv.tv, over http or
    https, with or without [www.], under [/vod/] or [/promo/], with exactly
    one path segment in between, possibly [content.do], and a query. *)
Theorem X1_accepted_url_shape (url v : string) :
  _match_id url = Ok v ->
  exists s w p seg c q,
    url = "http" ++ s ++ "://" ++ w ++ "litv.tv/" ++ p ++ "/" ++ seg ++ "/"
            ++ c ++ "?" ++ q /\
    (s = EmptyString \/ s = "s") /\ (w = EmptyString \/ w = "www.") /\
    (p = "vod" \/ p = "promo") /\
    seg <> EmptyString /\ string_forall not_slash seg = true /\
    (c = EmptyString \/ c = "content.do").
Proof.
  intro H. unfold _match_id in H.
  destruct (re_match _VALID_URL url) as [g|] eqn:Em; [|discriminate]. clear H.
  unfold re_match in Em.
  change _VALID_URL with
    (Lit "http" >> Opt (Lit "s") >> Lit "://" >> Opt (Lit "www.") >> Lit "litv.tv/"
     >> Alt (Lit "vod") (Lit "promo") >> Lit "/" >> Plus (NoneOf "/") >> Lit "/"
     >> Opt (Lit "content.do") >> Lit "?" >> url_query)%re in Em.
  rewrite bt_cat in Em. apply bt_lit_inv in Em as (p1 & E1 & Em). cbn [rest] in E1.
  rewrite bt_cat in Em. apply bt_opt_lit_inv in Em as (s & p2 & Hs & E2 & Em).
  rewrite bt_cat in Em. apply bt_lit_inv in Em as (p3 & E3 & Em).
  rewrite bt_cat in Em. apply bt_opt_lit_inv in Em as (w & p4 & Hw & E4 & Em).
  rewrite bt_cat in Em. apply bt_lit_inv in Em as (p5 & E5 & Em).
  rewrite bt_cat in Em. apply bt_alt_lit_inv in Em as (p & p6 & Hp & E6 & Em).
  rewrite bt_cat in Em. apply bt_lit_inv in Em as (p7 & E7 & Em).
  rewrite bt_cat in Em. apply bt_plus_inv in Em as (seg & p8 & Hne & Hseg & E8 & Em).
  rewrite bt_cat in Em. apply bt_lit_inv in Em as (p9 & E9 & Em).
  rewrite bt_cat in Em. apply bt_opt_lit_inv in Em as (c & p10 & Hc & E10 & Em).
  rewrite bt_cat in Em. apply bt_lit_inv in Em as (p11 & E11 & Em).
  exists s, w, p, seg, c, (rest p11).
  rewrite E1, E2, E3, E4, E5, E6, E7, E8, E9, E10, E11.
  repeat split; auto.
Qed.

Lemma X1_accepted_url_shape_witness :
  exists s w p seg c q,
    "https://www.litv.tv/promo/miyuezhuan/?content_id=VOD00044841&"
      = "http" ++ s ++ "://" ++ w ++ "litv.tv/" ++ p ++ "/" ++ seg ++ "/"
          ++ c ++ "?" ++ q /\
    (s = EmptyString \/ s = "s") /\ (w = EmptyString \/ w = "www.") /\
    (p = "vod" \/ p = "promo") /\
    seg <> EmptyString /\ string_forall not_slash seg = true /\
    (c = EmptyString \/ c = "content.do").
Proof.
  apply (X1_accepted_url_shape
           "https://www.litv.tv/promo/miyuezhuan/?content_id=VOD00044841&"
           "VOD00044841").
  vm_compute. reflexivity.
Defined.

Lemma url_query_matches_id v post g :
  v <> EmptyString -> string_forall not_amp v = true ->
  (post = EmptyString \/ exists post', post = "&" ++ post') ->
  bt url_query (mkpos (Some "?"%char) ("id=" ++ v ++ post) g)
     (fun q => Some (groups q))
  = Some (("id", v) :: g).
Proof.
  intros Hne Hv Hpost. unfold url_query.
  cbn -[url_id]. now rewrite (url_id_matches _ v post g Hne Hv Hpost).
Qed.

(** X2. The URLs of the shape the pattern is written for are all accepted,
    each with the value of its parameter as the id: either scheme, with or
    without [www.], [/vod/] or [/promo/], any series name without a slash,
    with or without [content.do], the parameter named [id] or [content_id]
    and standing first in the query, the value any text without [&]. *)
Theorem X2_standard_urls_accepted (s w p c ci : bool) (seg v post : string) :
  seg <> EmptyString -> string_forall not_slash seg = true ->
  v <> EmptyString -> string_forall not_amp v = true ->
  (post = EmptyString \/ exists post', post = "&" ++ post') ->
  _match_id ("http" ++ (if s then "s" else EmptyString) ++ "://"
               ++ (if w then "www." else EmptyString) ++ "litv.tv/"
               ++ (if p then "vod" else "promo") ++ "/" ++ seg ++ "/"
               ++ (if c then "content.do" else EmptyString) ++ "?"
               ++ (if ci then "content_" else EmptyString) ++ "id=" ++ v ++ post)
  = Ok v.
Proof.
  intros Hseg Hslash Hne Hv Hpost. unfold _match_id, re_match.
  change _VALID_URL with
    (Lit "http" >> Opt (Lit "s") >> Lit "://" >> Opt (Lit "www.") >> Lit "litv.tv/"
     >> Alt (Lit "vod") (Lit "promo") >> Lit "/" >> Plus (NoneOf "/") >> Lit "/"
     >> Opt (Lit "content.do") >> Lit "?" >> url_query)%re.
  destruct seg as [|a seg]; [contradiction|].
  simpl in Hslash. apply andb_true_iff in Hslash as [Ha Hslash].
  unfold not_slash in Ha.
  pose proof (url_query_matches v post [] Hne Hv Hpost) as Hq1.
  pose proof (url_query_matches_id v post [] Hne Hv Hpost) as Hq2.
  destruct s, w, p, c, ci;
    cbn -[greedy_star url_query]; rewrite Ha;
    (erewrite greedy_star_all;
     [ | exact Hslash | reflexivity
       | cbn -[url_query] in Hq1, Hq2 |- *;
         first [rewrite Hq1 | rewrite Hq2]; reflexivity ]);
    reflexivity.
Qed.

Lemma X2_standard_urls_accepted_witness :
  _match_id "http://litv.tv/promo/miyuezhuan/?id=VOD00044841&autoplay=1"
  = Ok "VOD00044841".
Proof.
  refine (X2_standard_urls_accepted false false false false false
            "miyuezhuan" "VOD00044841" "&autoplay=1" _ _ _ _ _).
  - discriminate.
  - reflexivity.
  - discriminate.
  - reflexivity.
  - right. exists "autoplay=1". reflexivity.
Defined.

End AcceptedUrls.

(* ================================================================== *)
(** ** The requests of a call                                           *)
(* ================================================================== *)

Section Requests.
Import Py Re Eff LiTVIE Obs EffFacts Req.
Local Arguments String.append : simpl never.

Lemma requests_app (a b : list event) : requests (a ++ b) = requests a ++ requests b.
Proof.
  induction a as [|e a IH]; simpl; [reflexivity|].
  destruct (rank e); simpl; now rewrite IH.
Qed.

Lemma asks_ret {A} (a : A) : asks [[]] [] (ret a).
Proof. intro t. exists []. simpl. rewrite app_nil_r. auto. Qed.

Lemma asks_raise {A} (e : exn) : asks [] [[]] (@raise A e).
Proof. intro t. exists []. simpl. rewrite app_nil_r. auto. Qed.

Lemma asks_lift {A} (r : result A) : asks [[]] [[]] (lift r).
Proof. intro t. exists []. simpl. rewrite app_nil_r. destruct r; auto. Qed.

Lemma asks_emit (e : event) (l : list nat) : requests [e] = l -> asks [l] [] (emit e).
Proof. intros <- t. exists [e]. simpl. auto. Qed.

Lemma in_followed (L1 L2 : list (list nat)) (l1 l2 : list nat) :
  In l1 L1 -> In l2 L2 -> In (l1 ++ l2) (followed L1 L2).
Proof.
  intros H1 H2. apply in_flat_map. exists l1. split; [assumption|]. now apply in_map.
Qed.

Lemma asks_bind {A B} (Lok1 Lerr1 Lok2 Lerr2 : list (list nat))
    (c : M A) (f : A -> M B) :
  asks Lok1 Lerr1 c -> (forall a, asks Lok2 Lerr2 (f a)) ->
  asks (followed Lok1 Lok2) (Lerr1 ++ followed Lok1 Lerr2) (bind c f).
Proof.
  intros Hc Hf t. unfold bind. destruct (Hc t) as (e1 & E1 & H1).
  destruct (c t) as [[a|e] t1]; cbn [fst snd] in E1, H1; subst t1.
  - destruct (Hf a (t ++ e1)) as (e2 & E2 & H2). exists (e1 ++ e2).
    rewrite E2, app_assoc, requests_app. split; [reflexivity|].
    destruct (fst (f a (t ++ e1))).
    + now apply in_followed.
    + apply in_or_app. right. now apply in_followed.
  - exists e1. cbn [fst snd]. split; [reflexivity|]. apply in_or_app. now left.
Qed.

Lemma asks_weaken {A} (Lok Lerr Lok' Lerr' : list (list nat)) (c : M A) :
  incl Lok Lok' -> incl Lerr Lerr' -> asks Lok Lerr c -> asks Lok' Lerr' c.
Proof.
  intros Hok Herr H t. destruct (H t) as (evs & E & Hin). exists evs.
  split; [assumption|]. destruct (fst (c t)); auto.
Qed.

Lemma asks_if {A} (Lok1 Lerr1 Lok2 Lerr2 : list (list nat)) (b : bool)
    (c1 c2 : M A) :
  asks Lok1 Lerr1 c1 -> asks Lok2 Lerr2 c2 ->
  asks (Lok1 ++ Lok2) (Lerr1 ++ Lerr2) (if b then c1 else c2).
Proof.
  intros H1 H2. destruct b.
  - eapply asks_weaken; [| |exact H1]; apply incl_appl, incl_refl.
  - eapply asks_weaken; [| |exact H2]; apply incl_appr, incl_refl.
Qed.

Lemma asks_option {A B} (Lok1 Lerr1 Lok2 Lerr2 : list (list nat)) (o : option A)
    (c1 : A -> M B) (c2 : M B) :
  (forall a, asks Lok1 Lerr1 (c1 a)) -> asks Lok2 Lerr2 c2 ->
  asks (Lok1 ++ Lok2) (Lerr1 ++ Lerr2) (match o with Some a => c1 a | None => c2 end).
Proof.
  intros H1 H2. destruct o as [a|].
  - eapply asks_weaken; [| |exact (H1 a)]; apply incl_appl, incl_refl.
  - eapply asks_weaken; [| |exact H2]; apply incl_appr, incl_refl.
Qed.

Ltac asks_tac :=
  repeat first
    [ apply asks_ret | apply asks_raise | apply asks_lift
    | eapply asks_emit; cbn; reflexivity
    | eapply asks_bind; [|intros ?]
    | eapply asks_if
    | eapply asks_option; [intros ?|] ].

(** The sequences of requests a call can make, split by its outcome. *)
Lemma asks_real_extract (h : Host) (url : string) :
  exists Lok Lerr,
    asks Lok Lerr (_real_extract h url) /\
    forallb (fun l => in_order l && page_first l && only_known l) (Lok ++ Lerr) = true /\
    forallb (fun l => match l with 0 :: _ => true | _ => false end) Lok = true.
Proof.
  eexists _, _. split.
  - unfold _real_extract, read_page, playlist_branch, _extract_playlist, single_video,
      program_info_step, video_data_step, require_fullpath, build_result,
      raise_geo_restricted, when, to_screen, _download_webpage, _download_json,
      _extract_m3u8_formats.
    asks_tac.
  - vm_compute. split; reflexivity.
Qed.

(** X3. A call makes no other requests than the four of the source, each at
    most once and in one order: the page, [getProgramInfo],
    [getMainUrlNoAuth], the manifest.  Nothing is requested before the page,
    and a call that returns has requested it. *)
Theorem X3_requests_in_order (h : Host) (url : string) (t : list event) :
  exists evs,
    snd (_real_extract h url t) = t ++ evs /\
    only_known (requests evs) = true /\
    in_order (requests evs) = true /\
    page_first (requests evs) = true /\
    (forall x, fst (_real_extract h url t) = Ok x -> exists l, requests evs = 0 :: l).
Proof.
  destruct (asks_real_extract h url) as (Lok & Lerr & Hasks & Hall & Hok).
  destruct (Hasks t) as (evs & E & Hin). exists evs. split; [exact E|].
  rewrite forallb_forall in Hall, Hok.
  assert (Hgood : in_order (requests evs) && page_first (requests evs)
                  && only_known (requests evs) = true).
  { apply Hall, in_or_app. destruct (fst (_real_extract h url t)); auto. }
  apply andb_true_iff in Hgood as [Hgood Hknown].
  apply andb_true_iff in Hgood as [Hord Hfirst]. repeat split; try assumption.
  intros x Hx. rewrite Hx in Hin. apply Hok in Hin.
  destruct (requests evs) as [|[|n] l]; try discriminate. now exists l.
Qed.

Lemma X3_requests_in_order_witness :
  exists evs,
    snd (_real_extract (Sample.bare_host Sample.video_data) Sample.url []) = [] ++ evs /\
    only_known (requests evs) = true /\
    in_order (requests evs) = true /\
    page_first (requests evs) = true /\
    (forall x,
       fst (_real_extract (Sample.bare_host Sample.video_data) Sample.url []) = Ok x ->
       exists l, requests evs = 0 :: l).
Proof.
  exact (X3_requests_in_order (Sample.bare_host Sample.video_data) Sample.url []).
Defined.

(** The four requests of the sample call that finds nothing embedded. *)
Example sample_requests :
  requests (snd (_real_extract (Sample.bare_host Sample.video_data) Sample.url []))
  = [0; 1; 2; 3].
Proof. vm_compute. reflexivity. Qed.

End Requests.

(* ================================================================== *)
(** ** More on the playlist path                                        *)
(* ================================================================== *)

Section PlaylistMore.
Import Py Re Eff LiTVIE Obs EffFacts Req.
Local Arguments String.append : simpl never.

Lemma rmap_Forall2 {A B} (f : A -> result B) (l : list A) (l' : list B) :
  rmap f l = Ok l' -> Forall2 (fun x y => f x = Ok y) l l'.
Proof.
  revert l'. induction l as [|x l IH]; simpl; intros l' H.
  - inversion H. constructor.
  - destruct (f x) as [y|] eqn:E; [|discriminate]. simpl in H.
    destruct (rmap f l) as [ys|]; [|discriminate]. simpl in H.
    inversion H. constructor; auto.
Qed.

Lemma rmap_first_error {A B} (f : A -> result B) (good : list A) (x : A)
    (rest : list A) (ys : list B) (e : exn) :
  rmap f good = Ok ys -> f x = Err e -> rmap f (good ++ x :: rest) = Err e.
Proof.
  revert ys. induction good as [|g good IH]; simpl; intros ys Hgood Hx.
  - now rewrite Hx.
  - destruct (f g) as [y|]; [|discriminate]. simpl in *.
    destruct (rmap f good) as [ys'|]; [|discriminate]. simpl in *.
    now rewrite (IH ys' eq_refl Hx).
Qed.

(** The page is requested once the URL is accepted, and nothing else happens
    before line 90. *)
Lemma read_page_trace (h : Host) (url : string) (t t1 : list event) (c : locals) :
  read_page h url t = (Ok c, t1) ->
  t1 = t ++ [WebpageRequest (l_url c) (l_video_id c)].
Proof.
  unfold read_page. intro H.
  apply bind_inv in H as ([u data] & t0 & Hu & H). apply lift_inv in Hu as [_ ->].
  apply bind_inv in H as (video_id & ? & Hid & H). apply lift_inv in Hid as [_ ->].
  apply bind_inv in H as (forced & ? & Hf & H). apply lift_inv in Hf as [_ ->].
  apply bind_inv in H as (intent & t2 & Hi & H).
  assert (t2 = t).
  { destruct forced.
    - apply bind_inv in Hi as (v & ? & Hv & Hi). apply lift_inv in Hv as [_ ->].
      now inversion Hi.
    - now inversion Hi. }
  subst t2.
  apply bind_inv in H as (webpage & t3 & Hw & H).
  unfold _download_webpage in Hw. rewrite bind_emit in Hw.
  apply lift_inv in Hw as [_ ->].
  apply bind_inv in H as (program_info & ? & Hp & H). apply lift_inv in Hp as [_ ->].
  apply bind_inv in H as (episodes_list & ? & He & H). apply lift_inv in He as [_ ->].
  inversion H. reflexivity.
Qed.

(** What a returned playlist was made of. *)
Lemma extract_playlist_inv (h : Host) (episodes_list : value) (video_id : string)
    (program_info : value) (prompt : bool) (t t' : list event) (x : info) :
  _extract_playlist h episodes_list video_id program_info prompt t = (Ok x, t') ->
  exists title content_id episodes entries,
    subscript program_info "title" = Ok title /\
    subscript program_info "contentId" = Ok content_id /\
    iterate episodes_list = Ok episodes /\
    Forall2 (fun ep e => exists u, subscript ep "url" = Ok (VStr u) /\
                                   e = UrlResult (smuggle_url h u force_noplaylist))
            episodes entries /\
    x = PlaylistResult entries content_id title /\
    t' = t ++ (if prompt then [ToScreen (playlist_notice h content_id video_id)]
               else []).
Proof.
  unfold _extract_playlist. intro H.
  apply bind_inv in H as (title & ? & Ht & H). apply lift_inv in Ht as [Ht ->].
  apply bind_inv in H as (cid & ? & Hc & H). apply lift_inv in Hc as [Hc ->].
  apply bind_inv in H as ([] & t1 & Hn & H).
  apply bind_inv in H as (entries & ? & He & H). apply lift_inv in He as [He ->].
  inversion H; subst x t'; clear H.
  apply rbind_inv in He as (episodes & Hit & He).
  exists title, cid, episodes, entries. repeat split; try assumption.
  - apply rmap_Forall2 in He. eapply Forall2_impl; [|exact He].
    intros ep e Hep. cbv beta in Hep.
    apply rbind_inv in Hep as (v & Hv & Hep).
    destruct v; try discriminate. inversion Hep. now exists s.
  - destruct prompt; cbn in Hn; inversion Hn; [reflexivity | now rewrite app_nil_r].
Qed.

Lemma real_extract_playlist_inv (h : Host) (url : string) (t t' : list event)
    (entries : list info) (playlist_id playlist_title : value) :
  _real_extract h url t = (Ok (PlaylistResult entries playlist_id playlist_title), t') ->
  exists c t1,
    read_page h url t = (Ok c, t1) /\
    truthy (l_episodes_list c) = true /\ truthy (l_noplaylist c) = false /\
    _extract_playlist h (l_episodes_list c) (l_video_id c) (l_program_info c)
      (l_noplaylist_prompt c) t1
    = (Ok (PlaylistResult entries playlist_id playlist_title), t').
Proof.
  unfold _real_extract. intro H.
  apply bind_inv in H as (c & t1 & Hpage & H).
  apply bind_inv in H as ([x|] & t2 & Hbranch & H).
  - inversion H; subst x t2; clear H. exists c, t1. split; [assumption|].
    unfold playlist_branch in Hbranch.
    destruct (truthy (l_episodes_list c)); [|discriminate].
    destruct (truthy (l_noplaylist c)); cbn [negb] in Hbranch.
    + apply bind_inv in Hbranch as (? & ? & _ & Hb). discriminate.
    + apply bind_inv in Hbranch as (pl & t2 & Hpl & Hb). inversion Hb; subst.
      auto.
  - apply single_video_video in H as (r & Hr & _). discriminate.
Qed.

Lemma playlist_entries_smuggled (h : Host) (url : string) (t t' : list event)
    (entries : list info) (playlist_id playlist_title : value) :
  _real_extract h url t = (Ok (PlaylistResult entries playlist_id playlist_title), t') ->
  Forall (fun e => exists u, e = UrlResult (smuggle_url h u force_noplaylist)) entries.
Proof.
  intro H. apply real_extract_playlist_inv in H as (c & t1 & _ & _ & _ & H).
  apply extract_playlist_inv in H
    as (title & cid & eps & entries' & _ & _ & _ & Hentries & Hx & _).
  inversion Hx; subst entries'; clear Hx.
  induction Hentries as [|ep e eps es (u & _ & He) _ IH]; constructor; eauto.
Qed.

(** X4. Returning a playlist costs one request, the page.  The entries are
    the episodes of the page's list, one entry per episode and in the order
    of the list, each the episode's [url] with the bag smuggled in and left
    for the caller to resolve; id and title are the program's [contentId] and
    [title]; the only other effect is the playlist notice, printed unless the
    call is itself a recursive one. *)
Theorem X4_playlist_costs_one_request (h : Host) (url : string) (t t' : list event)
    (entries : list info) (playlist_id playlist_title : value) :
  _real_extract h url t = (Ok (PlaylistResult entries playlist_id playlist_title), t') ->
  exists c t1 episodes,
    read_page h url t = (Ok c, t1) /\
    iterate (l_episodes_list c) = Ok episodes /\
    Forall2 (fun ep e => exists u, subscript ep "url" = Ok (VStr u) /\
                                   e = UrlResult (smuggle_url h u force_noplaylist))
            episodes entries /\
    length entries = length episodes /\
    subscript (l_program_info c) "contentId" = Ok playlist_id /\
    subscript (l_program_info c) "title" = Ok playlist_title /\
    t' = t ++ WebpageRequest (l_url c) (l_video_id c)
           :: (if l_noplaylist_prompt c
               then [ToScreen (playlist_notice h playlist_id (l_video_id c))]
               else []) /\
    requests (skipn (length t) t') = [0].
Proof.
  intro H. apply real_extract_playlist_inv in H as (c & t1 & Hpage & _ & _ & H).
  pose proof (read_page_trace h _ _ _ _ Hpage) as Ht1.
  apply extract_playlist_inv in H
    as (title & cid & eps & entries' & Htitle & Hcid & Hit & Hentries & Hx & Ht').
  inversion Hx; subst entries' playlist_id playlist_title; clear Hx.
  rewrite Ht1, <- app_assoc in Ht'. cbn [app] in Ht'.
  exists c, t1, eps.
  split; [exact Hpage|]. split; [exact Hit|]. split; [exact Hentries|].
  split; [symmetry; eapply Forall2_length, Hentries|].
  split; [exact Hcid|]. split; [exact Htitle|]. split; [exact Ht'|].
  rewrite Ht', skipn_app, skipn_all, Nat.sub_diag. cbn [app skipn].
  destruct (l_noplaylist_prompt c); reflexivity.
Qed.

Lemma X4_playlist_costs_one_request_witness :
  exists c t1 episodes,
    read_page Sample.playlist_host Sample.url [] = (Ok c, t1) /\
    iterate (l_episodes_list c) = Ok episodes /\
    Forall2 (fun ep e => exists u, subscript ep "url" = Ok (VStr u) /\
               e = UrlResult (smuggle_url Sample.playlist_host u force_noplaylist))
            episodes
            (map (fun u => UrlResult (smuggle_url Sample.playlist_host u Sample.smuggled))
                 Sample.episode_urls) /\
    length (map (fun u => UrlResult (smuggle_url Sample.playlist_host u Sample.smuggled))
                Sample.episode_urls) = length episodes /\
    subscript (l_program_info c) "contentId" = Ok (VStr "VOD00037490") /\
    subscript (l_program_info c) "title" = Ok (VStr "Drama") /\
    Sample.page_read
      ++ [ToScreen (playlist_notice Sample.playlist_host (VStr "VOD00037490")
                      Sample.video_id)]
    = [] ++ WebpageRequest (l_url c) (l_video_id c)
           :: (if l_noplaylist_prompt c
               then [ToScreen (playlist_notice Sample.playlist_host
                                 (VStr "VOD00037490") (l_video_id c))]
               else []) /\
    requests (skipn (length (@nil event))
                (Sample.page_read
                   ++ [ToScreen (playlist_notice Sample.playlist_host
                                   (VStr "VOD00037490") Sample.video_id)]))
    = [0].
Proof.
  refine (X4_playlist_costs_one_request Sample.playlist_host Sample.url [] _ _ _ _ _).
  vm_compute. reflexivity.
Defined.

(** The entries of the sample playlist, against the episodes of its page. *)
Example sample_playlist_entries :
  fst (_real_extract Sample.playlist_host Sample.url [])
  = Ok (PlaylistResult
          (map (fun u => UrlResult (smuggle_url Sample.playlist_host u force_noplaylist))
               Sample.episode_urls)
          (VStr "VOD00037490") (VStr "Drama")) /\
  map (fun ep => subscript ep "url") Sample.episode_entries
  = map (fun u => Ok (VStr u)) Sample.episode_urls.
Proof. vm_compute. split; reflexivity. Qed.

(** X5. The entries of a playlist do not expand again: when the host gives
    back from the URL of an entry the bag that was smuggled into it,
    resolving that URL never returns a playlist; what it returns is the
    record of one video.  This is what line 64 smuggles the bag for. *)
Theorem X5_playlist_entries_do_not_recurse (h : Host) (url : string)
    (t t' : list event) (entries : list info) (playlist_id playlist_title : value)
    (e : info) :
  _real_extract h url t = (Ok (PlaylistResult entries playlist_id playlist_title), t') ->
  In e entries ->
  exists u,
    e = UrlResult (smuggle_url h u force_noplaylist) /\
    forall u',
      unsmuggle_url h (smuggle_url h u force_noplaylist) = Ok (u', force_noplaylist) ->
      forall t2 x t3,
        _real_extract h (smuggle_url h u force_noplaylist) t2 = (Ok x, t3) ->
        exists r, x = Video r.
Proof.
  intros H Hin.
  pose proof (playlist_entries_smuggled h _ _ _ _ _ _ H) as Hall.
  rewrite Forall_forall in Hall. destruct (Hall e Hin) as (u & He).
  exists u. split; [exact He|].
  intros u' Hu t2 x t3 Hrun. unfold _real_extract in Hrun.
  apply bind_inv in Hrun as (c & t4 & Hpage & Hrun).
  assert (Hnp : truthy (l_noplaylist c) = true).
  { destruct (read_page_intent h _ _ _ _ Hpage)
      as (u'' & data & forced & Hu'' & Hforced & _ & Hintent).
    rewrite Hu in Hu''. inversion Hu''; subst u'' data; clear Hu''.
    cbn in Hforced. inversion Hforced; subst forced.
    cbn in Hintent. inversion Hintent. reflexivity. }
  apply bind_inv in Hrun as ([x'|] & t5 & Hbranch & Hrun).
  - apply playlist_branch_early in Hbranch as (Hoff & _). congruence.
  - apply single_video_video in Hrun as (r & -> & _). now exists r.
Qed.

Lemma X5_playlist_entries_do_not_recurse_witness :
  exists u,
    UrlResult Sample.episode_url
      = UrlResult (smuggle_url Sample.playlist_host u force_noplaylist) /\
    forall u',
      unsmuggle_url Sample.playlist_host
        (smuggle_url Sample.playlist_host u force_noplaylist)
        = Ok (u', force_noplaylist) ->
      forall t2 x t3,
        _real_extract Sample.playlist_host
          (smuggle_url Sample.playlist_host u force_noplaylist) t2 = (Ok x, t3) ->
        exists r, x = Video r.
Proof.
  refine (X5_playlist_entries_do_not_recurse Sample.playlist_host Sample.url []
            (Sample.page_read
               ++ [ToScreen (playlist_notice Sample.playlist_host (VStr "VOD00037490")
                               Sample.video_id)])
            (map (fun u => UrlResult
                    (smuggle_url Sample.playlist_host u Sample.smuggled))
                 Sample.episode_urls)
            (VStr "VOD00037490") (VStr "Drama") (UrlResult Sample.episode_url) _ _).
  - vm_compute. reflexivity.
  - left. reflexivity.
Defined.

(** The entry of the sample playlist, resolved: the smuggled bag comes back
    and the call returns the video. *)
Example sample_entry_unsmuggled :
  unsmuggle_url Sample.playlist_host Sample.episode_url
  = Ok (Sample.url, force_noplaylist).
Proof. vm_compute. reflexivity. Qed.

(** X6. When [force_noplaylist] is smuggled in the URL, the [noplaylist]
    option of the downloader is not consulted: the call is the same whatever
    the option is set to. *)
Theorem X6_smuggled_flag_replaces_option (h : Host) (v : value) (url u : string)
    (data : value) (t : list event) :
  unsmuggle_url h url = Ok (u, data) ->
  contains "force_noplaylist" data = Ok true ->
  _real_extract (with_noplaylist v h) url t = _real_extract h url t.
Proof.
  intros Hu Hforced. unfold _real_extract.
  assert (Hpage : read_page (with_noplaylist v h) url t = read_page h url t).
  { unfold read_page. rewrite !bind_lift. cbn [unsmuggle_url with_noplaylist].
    rewrite Hu. cbn [fst snd]. rewrite !bind_lift.
    destruct (_match_id u) as [video_id|]; [|reflexivity].
    rewrite !bind_lift, Hforced. reflexivity. }
  unfold bind at 1 3. rewrite Hpage.
  destruct (read_page h url t) as [[c|e] t1]; reflexivity.
Qed.

Lemma X6_smuggled_flag_replaces_option_witness :
  _real_extract (with_noplaylist (VBool true) Sample.playlist_host) Sample.episode_url []
  = _real_extract Sample.playlist_host Sample.episode_url [].
Proof.
  refine (X6_smuggled_flag_replaces_option Sample.playlist_host (VBool true)
            Sample.episode_url Sample.url force_noplaylist [] _ _).
  - vm_compute. reflexivity.
  - reflexivity.
Defined.

(** X7. On a page without an episode list the call goes straight to the
    single-video path, whatever the playlist option says, and prints
    nothing: the [--no-playlist] notice is for pages that have a list. *)
Theorem X7_no_episode_list_no_notice (h : Host) (url : string) (t t1 : list event)
    (c : locals) :
  read_page h url t = (Ok c, t1) ->
  truthy (l_episodes_list c) = false ->
  _real_extract h url t
    = single_video h (l_video_id c) (l_webpage c) (l_program_info c) t1 /\
  exists evs, snd (_real_extract h url t) = t ++ evs /\ screen_lines evs = [].
Proof.
  intros Hpage Heps.
  assert (Hbranch : playlist_branch h c t1 = (Ok None, t1)).
  { unfold playlist_branch. now rewrite Heps. }
  pose proof (real_extract_single h _ _ _ _ _ Hpage Hbranch) as Hrun.
  split; [exact Hrun|]. rewrite Hrun.
  pose proof (read_page_trace h _ _ _ _ Hpage) as Ht1. subst t1.
  destruct (silent_single_video h (l_video_id c) (l_webpage c) (l_program_info c)
              (t ++ [WebpageRequest (l_url c) (l_video_id c)])) as (evs & E & S).
  exists ([WebpageRequest (l_url c) (l_video_id c)] ++ evs).
  rewrite E, app_assoc. split; [reflexivity|].
  rewrite screen_lines_app. exact S.
Qed.

Lemma X7_no_episode_list_no_notice_witness :
  exists evs,
    snd (_real_extract (with_noplaylist (VBool true) (Sample.bare_host Sample.video_data))
           Sample.url [])
    = [] ++ evs /\
    screen_lines evs = [].
Proof.
  refine (proj2 (X7_no_episode_list_no_notice
                   (with_noplaylist (VBool true) (Sample.bare_host Sample.video_data))
                   Sample.url [] Sample.page_read
                   (Sample.locals_of (VBool true) true (VDict []) (VList [])) _ _)).
  - vm_compute. reflexivity.
  - reflexivity.
Defined.

(** X8. An episode entry without [url] ends the playlist path with
    [KeyError('url')], and only after the playlist notice has been printed:
    the entries are built after line 59. *)
Theorem X8_episode_without_url (h : Host) (url : string) (t t1 : list event)
    (c : locals) (good rest : list value) (urls : list string)
    (d : list (string * value)) (title content_id : value) :
  read_page h url t = (Ok c, t1) ->
  l_episodes_list c = VList (good ++ VDict d :: rest) ->
  Forall2 (fun ep u => subscript ep "url" = Ok (VStr u)) good urls ->
  lookup "url" d = None ->
  truthy (l_noplaylist c) = false ->
  subscript (l_program_info c) "title" = Ok title ->
  subscript (l_program_info c) "contentId" = Ok content_id ->
  _real_extract h url t
  = (Err (KeyError "url"),
     t1 ++ (if l_noplaylist_prompt c
            then [ToScreen (playlist_notice h content_id (l_video_id c))]
            else [])).
Proof.
  intros Hpage Heps Hgood Hd Hnp Htitle Hcid.
  unfold _real_extract. rewrite (bind_ok _ _ _ _ _ Hpage).
  unfold playlist_branch. rewrite Heps, Hnp.
  replace (truthy (VList (good ++ VDict d :: rest))) with true
    by (destruct good; reflexivity).
  cbn [negb].
  assert (Hpl : _extract_playlist h (VList (good ++ VDict d :: rest)) (l_video_id c)
                  (l_program_info c) (l_noplaylist_prompt c) t1
                = (Err (KeyError "url"),
                   t1 ++ (if l_noplaylist_prompt c
                          then [ToScreen (playlist_notice h content_id (l_video_id c))]
                          else []))).
  { unfold _extract_playlist. rewrite bind_lift, Htitle, bind_lift, Hcid.
    cbn [iterate rbind].
    erewrite rmap_first_error;
      [ | exact (all_episodes_urls h _ _ Hgood) | cbn [subscript]; now rewrite Hd ].
    unfold playlist_notice, when, to_screen.
    destruct (l_noplaylist_prompt c); cbn; [reflexivity | now rewrite app_nil_r]. }
  now rewrite (bind_err _ _ _ _ _ (bind_err _ _ _ _ _ Hpl)).
Qed.

Lemma X8_episode_without_url_witness :
  _real_extract
    (Sample.host VNone (Some Sample.program_info)
       (Some (VList (Sample.episode_entries ++ [VDict [("title", VStr "3")]])))
       (Some Sample.video_data)
       (Err (DownloadError "getProgramInfo")) (Err (DownloadError "getMainUrlNoAuth"))
       (Ok Sample.formats))
    Sample.url []
  = (Err (KeyError "url"),
     Sample.page_read
       ++ [ToScreen (playlist_notice Sample.playlist_host (VStr "VOD00037490")
                       Sample.video_id)]).
Proof.
  refine (X8_episode_without_url _ Sample.url [] Sample.page_read
            (Sample.locals_of VNone true Sample.program_info
               (VList (Sample.episode_entries ++ [VDict [("title", VStr "3")]])))
            Sample.episode_entries [] Sample.episode_urls [("title", VStr "3")]
            (VStr "Drama") (VStr "VOD00037490") _ _ _ _ _ _ _).
  - vm_compute. reflexivity.
  - reflexivity.
  - repeat constructor.
  - reflexivity.
  - reflexivity.
  - reflexivity.
  - reflexivity.
Defined.

End PlaylistMore.

(* ================================================================== *)
(** ** More on the single-video path                                    *)
(* ================================================================== *)

Section SingleVideoMore.
Import Py Re Eff LiTVIE Obs EffFacts Req.
Local Arguments String.append : simpl never.

Lemma lookup_dict_set_other (k k' : string) (v : value) (d : list (string * value)) :
  k' <> k -> lookup k' (dict_set k v d) = lookup k' d.
Proof.
  intro Hne.
  assert (Hkk : String.eqb k k' = false) by (apply String.eqb_neq; congruence).
  induction d as [|[k0 v0] d IH]; simpl.
  - now rewrite Hkk.
  - destruct (String.eqb_spec k0 k) as [->|Hk]; simpl.
    + now rewrite Hkk.
    + now rewrite IH.
Qed.

Lemma no_compression_only_header (a_format a_format' : value) :
  no_compression a_format = Ok a_format' -> only_header_forced a_format a_format'.
Proof.
  unfold no_compression. destruct a_format as [| | | | |d]; try discriminate.
  destruct (match lookup "http_headers" d with Some hd => hd | None => VDict [] end)
    as [| | | | |hd] eqn:Eh; try discriminate.
  intro H. inversion H; subst a_format'; clear H.
  eexists d, _. split; [reflexivity|]. split; [reflexivity|]. split.
  - intros k Hk. now apply lookup_dict_set_other.
  - exists hd, (dict_set "Youtubedl-no-compression" (VBool true) hd).
    repeat split.
    + exact Eh.
    + apply lookup_dict_set.
    + apply lookup_dict_set.
    + intros k Hk. now apply lookup_dict_set_other.
Qed.

(** Lines 130-151 when they return. *)
Lemma build_result_inv (h : Host) (video_id : string) (program_info video_data : value)
    (t t' : list event) (x : info) :
  build_result h video_id program_info video_data t = (Ok x, t') ->
  exists m3u8_url formats formats',
    subscript video_data "fullpath" = Ok m3u8_url /\
    manifest_response h m3u8_url video_id "mp4" "m3u8_native" "hls" = Ok formats /\
    rmap no_compression formats = Ok formats' /\
    metadata h video_id formats' program_info = Ok x /\
    t' = t ++ [manifest_request m3u8_url video_id].
Proof.
  unfold build_result. intro H.
  apply bind_inv in H as (m3u8_url & ? & Hu & H). apply lift_inv in Hu as [Hu ->].
  apply bind_inv in H as (formats & t1 & Hm & H).
  unfold _extract_m3u8_formats in Hm. rewrite bind_emit in Hm.
  apply lift_inv in Hm as [Hm ->].
  apply bind_inv in H as (formats' & ? & Hf & H). apply lift_inv in Hf as [Hf ->].
  apply lift_inv in H as [H ->].
  now exists m3u8_url, formats, formats'.
Qed.

(** Lines 130-151, run. *)
Lemma build_result_run (h : Host) (video_id : string) (program_info video_data
    m3u8_url : value) (t : list event) :
  subscript video_data "fullpath" = Ok m3u8_url ->
  build_result h video_id program_info video_data t
  = (match manifest_response h m3u8_url video_id "mp4" "m3u8_native" "hls" with
     | Ok formats =>
         match rmap no_compression formats with
         | Ok formats' => metadata h video_id formats' program_info
         | Err e => Err e
         end
     | Err e => Err e
     end,
     t ++ [manifest_request m3u8_url video_id]).
Proof.
  intro Hu. unfold build_result, _extract_m3u8_formats, manifest_request.
  rewrite bind_lift, Hu. unfold bind, emit, lift.
  destruct (manifest_response h m3u8_url video_id "mp4" "m3u8_native" "hls");
    [|reflexivity].
  destruct (rmap no_compression a); reflexivity.
Qed.

Lemma require_fullpath_inv (h : Host) (video_data : value) (t t' : list event) :
  require_fullpath h video_data t = (Ok tt, t') ->
  t' = t /\ exists d fullpath,
    video_data = VDict d /\ lookup "fullpath" d = Some fullpath /\
    truthy fullpath = true.
Proof.
  unfold require_fullpath, raise_geo_restricted, raise. rewrite bind_lift.
  destruct video_data as [| | | | |d]; try discriminate. cbn [get].
  destruct (lookup "fullpath" d) as [fp|] eqn:Efp.
  - destruct (truthy fp) eqn:Et; cbn [negb].
    + intro H. inversion H. split; [reflexivity|]. now exists d, fp.
    + rewrite bind_lift.
      intro H.
      repeat match type of H with
             | context [if ?b then _ else _] => destruct b
             end; discriminate.
  - cbn [truthy negb]. rewrite bind_lift. intro H.
    repeat match type of H with
           | context [if ?b then _ else _] => destruct b
           end; discriminate.
Qed.

(** A call that returns a video has gone all the way down the single-video
    path. *)
Lemma real_extract_video_inv (h : Host) (url : string) (t t' : list event)
    (r : ResultRecord) :
  _real_extract h url t = (Ok (Video r), t') ->
  exists c program_info video_data t4,
    reaches_video_data h url t c program_info video_data t4 /\
    build_result h (l_video_id c) program_info video_data t4 = (Ok (Video r), t').
Proof.
  unfold _real_extract. intro H.
  apply bind_inv in H as (c & t1 & Hpage & H).
  apply bind_inv in H as ([y|] & t2 & Hbranch & H).
  - inversion H; subst y.
    apply playlist_branch_early in Hbranch as (_ & ? & ? & ? & Hx). discriminate.
  - unfold single_video in H.
    apply bind_inv in H as (program_info & t3 & Hinfo & H).
    apply bind_inv in H as (video_data & t4 & Hdata & H).
    apply bind_inv in H as ([] & t5 & Hfull & H).
    apply require_fullpath_inv in Hfull as [-> _].
    exists c, program_info, video_data, t4. split; [|exact H].
    exists t3. split; [|exact Hdata]. now exists t1, t2.
Qed.

(** X9. The formats of a returned record are the formats of the manifest, as
    many and in the same order, each with nothing changed but the header
    forced: its other fields and its other headers are as the manifest parser
    gave them. *)
Theorem X9_formats_otherwise_untouched (h : Host) (url : string) (t t' : list event)
    (r : ResultRecord) :
  _real_extract h url t = (Ok (Video r), t') ->
  exists m3u8_url formats,
    manifest_response h m3u8_url (r_id r) "mp4" "m3u8_native" "hls" = Ok formats /\
    Forall2 only_header_forced formats (r_formats r) /\
    length (r_formats r) = length formats.
Proof.
  intro H. apply real_extract_video_inv in H
    as (c & program_info & video_data & t4 & _ & H).
  apply build_result_inv in H as (m3u8_url & formats & formats' & _ & Hm & Hf & Hmeta & _).
  apply metadata_video in Hmeta as (r' & Hr & Hid & Hformats).
  inversion Hr; subst r'. rewrite Hid, Hformats.
  exists m3u8_url, formats. split; [exact Hm|]. split.
  - apply rmap_Forall2 in Hf. eapply Forall2_impl; [|exact Hf].
    intros a b. apply no_compression_only_header.
  - eapply rmap_length, Hf.
Qed.

Lemma X9_formats_otherwise_untouched_witness :
  exists m3u8_url formats,
    manifest_response Sample.noplaylist_host m3u8_url (r_id Sample.record)
      "mp4" "m3u8_native" "hls" = Ok formats /\
    Forall2 only_header_forced formats (r_formats Sample.record) /\
    length (r_formats Sample.record) = length formats.
Proof.
  refine (X9_formats_otherwise_untouched Sample.noplaylist_host Sample.url []
            (Sample.page_read ++ [ToScreen (single_notice Sample.video_id)]
               ++ [Sample.manifest_request])
            Sample.record _).
  vm_compute. reflexivity.
Defined.

Lemma real_extract_with_fullpath (h : Host) (url : string) (t t4 : list event)
    (c : locals) (program_info fullpath : value) (d : list (string * value)) :
  reaches_video_data h url t c program_info (VDict d) t4 ->
  lookup "fullpath" d = Some fullpath ->
  truthy fullpath = true ->
  _real_extract h url t = build_result h (l_video_id c) program_info (VDict d) t4.
Proof.
  intros Hreach Hfull Htrue.
  rewrite (real_extract_at_video_data h _ _ _ _ _ _ Hreach).
  unfold require_fullpath. unfold bind at 1. rewrite bind_lift.
  cbn [get]. rewrite Hfull, Htrue. reflexivity.
Qed.

(** What lines 137-151 put in the record. *)
Lemma metadata_fields (h : Host) (video_id : string) (formats : list value)
    (d : list (string * value)) (r : ResultRecord) :
  metadata h video_id formats (VDict d) = Ok (Video r) ->
  r_id r = video_id /\ r_formats r = formats /\
  (exists title0,
     lookup "title" d = Some title0 /\
     add title0 (field "secondaryMark" (VStr EmptyString) d) = Ok (r_title r)) /\
  r_description r = field "description" VNone d /\
  r_thumbnail r = field "imageFile" VNone d /\
  (exists items,
     iterate (field "category" (VList []) d) = Ok items /\
     Forall2 (fun item name => subscript item "name" = Ok name) items (r_categories r)) /\
  int_or_none h (field "episode" VNone d) = Ok (r_episode_number r).
Proof.
  unfold metadata. intro H.
  apply rbind_inv in H as (title0 & Ht & H).
  apply rbind_inv in H as (mark & Hm & H).
  apply rbind_inv in H as (title & Hadd & H).
  apply rbind_inv in H as (description & Hd & H).
  apply rbind_inv in H as (thumbnail & Hth & H).
  apply rbind_inv in H as (category & Hc & H).
  apply rbind_inv in H as (items & Hi & H).
  apply rbind_inv in H as (categories & Hcs & H).
  apply rbind_inv in H as (episode0 & He0 & H).
  apply rbind_inv in H as (episode & He & H).
  inversion H; subst r; clear H. cbn [r_id r_formats r_title r_description r_thumbnail
                                     r_categories r_episode_number].
  cbn [get subscript] in *. fold (field "secondaryMark" (VStr EmptyString) d) in Hm.
  fold (field "description" VNone d) in Hd. fold (field "imageFile" VNone d) in Hth.
  fold (field "category" (VList []) d) in Hc. fold (field "episode" VNone d) in He0.
  inversion Hm; inversion Hd; inversion Hth; inversion Hc; inversion He0; subst.
  destruct (lookup "title" d) as [v|] eqn:Etitle; [|discriminate].
  inversion Ht; subst v.
  repeat split; auto.
  - now exists title0.
  - exists items. split; [assumption|]. now apply rmap_Forall2.
Qed.

(** X10. A [fullpath] that is there but empty, null or false counts as
    missing: the call ends with one of the three errors of lines 124-128 and
    the manifest is not requested. *)
Theorem X10_empty_fullpath_is_missing (h : Host) (url : string) (t t4 : list event)
    (c : locals) (program_info fullpath : value) (d : list (string * value)) :
  reaches_video_data h url t c program_info (VDict d) t4 ->
  lookup "fullpath" d = Some fullpath ->
  truthy fullpath = false ->
  exists e,
    _real_extract h url t = (Err e, t4) /\
    (error_kind e = Some GeoRestricted \/ error_kind e = Some RemoteError \/
     error_kind e = Some UnexpectedResponse).
Proof.
  intros Hreach Hfull Hfalse.
  rewrite (real_extract_at_video_data h _ _ _ _ _ _ Hreach).
  unfold require_fullpath, raise_geo_restricted, raise. unfold bind at 1.
  rewrite bind_lift. cbn [get]. rewrite Hfull, Hfalse. cbn [negb]. rewrite bind_lift.
  set (error_msg := match lookup "errorMessage" d with Some v => v | None => VNone end).
  destruct (eq_str error_msg "vod.error.outsideregionerror").
  - eexists. split; [reflexivity|]. now left.
  - destruct (truthy error_msg).
    + eexists. split; [reflexivity|]. right. now left.
    + eexists. split; [reflexivity|]. right. now right.
Qed.

Lemma X10_empty_fullpath_is_missing_witness :
  exists e,
    _real_extract (Sample.bare_host (VDict [("fullpath", VStr EmptyString)]))
      Sample.url []
    = (Err e, (Sample.page_read ++ [program_info_request Sample.video_id])
                ++ [main_url_request Sample.geo_blocked_host Sample.video_id
                      (VStr "vod1") (VList [VStr "PC"]) (VStr "drama")]) /\
    (error_kind e = Some GeoRestricted \/ error_kind e = Some RemoteError \/
     error_kind e = Some UnexpectedResponse).
Proof.
  refine (X10_empty_fullpath_is_missing
            (Sample.bare_host (VDict [("fullpath", VStr EmptyString)])) Sample.url [] _
            (Sample.locals_of VNone true (VDict []) (VList []))
            Sample.program_info (VStr EmptyString)
            [("fullpath", VStr EmptyString)] _ _ _).
  - exists (Sample.page_read ++ [program_info_request Sample.video_id]). split.
    + exists Sample.page_read, Sample.page_read.
      repeat split; vm_compute; reflexivity.
    + vm_compute. reflexivity.
  - reflexivity.
  - reflexivity.
Defined.

(** X11. With a usable [fullpath] the call goes on to request the manifest
    at that address, and [errorMessage] is not looked at: whatever else the
    video data holds, the outcome is that of lines 130-151 and the manifest
    request is the one event that follows. *)
Theorem X11_fullpath_wins_over_error (h : Host) (url : string) (t t4 : list event)
    (c : locals) (program_info fullpath : value) (d : list (string * value)) :
  reaches_video_data h url t c program_info (VDict d) t4 ->
  lookup "fullpath" d = Some fullpath ->
  truthy fullpath = true ->
  _real_extract h url t = build_result h (l_video_id c) program_info (VDict d) t4 /\
  snd (_real_extract h url t) = t4 ++ [manifest_request fullpath (l_video_id c)] /\
  (forall e, fst (_real_extract h url t) = Err e ->
     manifest_response h fullpath (l_video_id c) "mp4" "m3u8_native" "hls" = Err e \/
     exists formats,
       manifest_response h fullpath (l_video_id c) "mp4" "m3u8_native" "hls"
         = Ok formats /\
       (rmap no_compression formats = Err e \/
        exists formats', rmap no_compression formats = Ok formats' /\
                         metadata h (l_video_id c) formats' program_info = Err e)).
Proof.
  intros Hreach Hfull Htrue.
  pose proof (real_extract_with_fullpath h _ _ _ _ _ _ _ Hreach Hfull Htrue) as Hrun.
  split; [exact Hrun|]. rewrite Hrun.
  rewrite (build_result_run h _ _ (VDict d) fullpath t4)
    by (cbn [subscript]; now rewrite Hfull).
  cbn [fst snd]. split; [reflexivity|]. intros e He.
  destruct (manifest_response h fullpath (l_video_id c) "mp4" "m3u8_native" "hls")
    as [formats|e0];
    [right; exists formats; split; [reflexivity|] | left; congruence].
  destruct (rmap no_compression formats) as [formats'|e1]; [right | left; congruence].
  exists formats'. split; [reflexivity | exact He].
Qed.

Lemma X11_fullpath_wins_over_error_witness :
  snd (_real_extract
         (Sample.bare_host
            (VDict [("fullpath", VStr "https://litv.example/hls/vod1.m3u8");
                    ("errorMessage", VStr "vod.error.outsideregionerror")]))
         Sample.url [])
  = ((Sample.page_read ++ [program_info_request Sample.video_id])
       ++ [main_url_request Sample.geo_blocked_host Sample.video_id
             (VStr "vod1") (VList [VStr "PC"]) (VStr "drama")])
      ++ [manifest_request (VStr "https://litv.example/hls/vod1.m3u8") Sample.video_id].
Proof.
  refine (proj1 (proj2 (X11_fullpath_wins_over_error
            (Sample.bare_host
               (VDict [("fullpath", VStr "https://litv.example/hls/vod1.m3u8");
                       ("errorMessage", VStr "vod.error.outsideregionerror")]))
            Sample.url [] _
            (Sample.locals_of VNone true (VDict []) (VList []))
            Sample.program_info (VStr "https://litv.example/hls/vod1.m3u8")
            [("fullpath", VStr "https://litv.example/hls/vod1.m3u8");
             ("errorMessage", VStr "vod.error.outsideregionerror")] _ _ _))).
  - exists (Sample.page_read ++ [program_info_request Sample.video_id]). split.
    + exists Sample.page_read, Sample.page_read.
      repeat split; vm_compute; reflexivity.
    + vm_compute. reflexivity.
  - reflexivity.
  - reflexivity.
Defined.

(** X12. What the record of a video says: its id is the id found in the
    URL; its title is the program's [title] with [secondaryMark] appended
    when there is one; description and thumbnail are [description] and
    [imageFile], or nothing; the categories are the [name]s of [category], in
    order, none when [category] is absent; the episode number is
    [int_or_none] of [episode]. *)
Theorem X12_record_metadata (h : Host) (url : string) (t t3 t' : list event)
    (c : locals) (d : list (string * value)) (r : ResultRecord) :
  on_single_path h url t c (VDict d) t3 ->
  _real_extract h url t = (Ok (Video r), t') ->
  r_id r = l_video_id c /\
  (forall s, lookup "title" d = Some (VStr s) ->
     (lookup "secondaryMark" d = None -> r_title r = VStr s) /\
     (forall m, lookup "secondaryMark" d = Some (VStr m) ->
        r_title r = VStr (s ++ m))) /\
  r_description r = field "description" VNone d /\
  r_thumbnail r = field "imageFile" VNone d /\
  (lookup "category" d = None -> r_categories r = []) /\
  (forall items, lookup "category" d = Some (VList items) ->
     Forall2 (fun item name => subscript item "name" = Ok name)
             items (r_categories r)) /\
  int_or_none h (field "episode" VNone d) = Ok (r_episode_number r).
Proof.
  intros Hpath Hrun.
  rewrite (real_extract_on_single_path h _ _ _ _ _ Hpath) in Hrun.
  apply bind_inv in Hrun as (video_data & t4 & _ & Hrun).
  apply bind_inv in Hrun as ([] & t5 & _ & Hrun).
  apply build_result_inv in Hrun as (m3u8_url & fs & fs' & _ & _ & _ & Hmeta & _).
  apply metadata_fields in Hmeta
    as (Hid & _ & (title0 & Htitle & Hadd) & Hdesc & Hthumb & (items & Hit & Hcat) & Hep).
  split; [exact Hid|]. split; [|split; [exact Hdesc|split; [exact Hthumb|split; [|split]]]].
  - intros s Hs. rewrite Hs in Htitle. inversion Htitle; subst title0.
    unfold field in Hadd. split.
    + intro Hnone. rewrite Hnone in Hadd. cbn [add] in Hadd.
      rewrite append_empty_r in Hadd. now inversion Hadd.
    + intros m Hm. rewrite Hm in Hadd. cbn [add] in Hadd. now inversion Hadd.
  - intro Hnone. unfold field in Hit. rewrite Hnone in Hit. cbn [iterate] in Hit.
    inversion Hit; subst items. now inversion Hcat.
  - intros items' Hsome. unfold field in Hit. rewrite Hsome in Hit.
    cbn [iterate] in Hit. inversion Hit; subst items'. exact Hcat.
  - exact Hep.
Qed.

Lemma X12_record_metadata_witness :
  r_id Sample.record = Sample.video_id /\
  r_title Sample.record = VStr ("Drama" ++ " ep. 1") /\
  r_description Sample.record = VNone.
Proof.
  destruct (X12_record_metadata Sample.noplaylist_host Sample.url []
              (Sample.page_read ++ [ToScreen (single_notice Sample.video_id)])
              (Sample.page_read ++ [ToScreen (single_notice Sample.video_id)]
                 ++ [Sample.manifest_request])
              (Sample.locals_of (VBool true) true Sample.program_info Sample.episodes)
              [("contentId", VStr "VOD00037490"); ("title", VStr "Drama");
               ("secondaryMark", VStr " ep. 1"); ("episode", VInt 1);
               ("category", VList [VDict [("name", VStr "drama")]]);
               ("assetId", VStr "vod1"); ("watchDevices", VList [VStr "PC"]);
               ("contentType", VStr "drama")]
              Sample.record)
    as (Hid & Htitle & Hdesc & _).
  - exists Sample.page_read,
      (Sample.page_read ++ [ToScreen (single_notice Sample.video_id)]).
    repeat split; vm_compute; reflexivity.
  - vm_compute. reflexivity.
  - split; [exact Hid|]. split; [|exact Hdesc].
    exact (proj2 (Htitle "Drama" eq_refl) " ep. 1" eq_refl).
Defined.

(** X13. The title is read after the manifest: a program info without
    [title] lets the call request and treat the manifest, and only then ends
    it with [KeyError('title')]. *)
Theorem X13_missing_title_after_manifest (h : Host) (url : string)
    (t t4 : list event) (c : locals) (fullpath : value)
    (pi d : list (string * value)) (formats formats' : list value) :
  reaches_video_data h url t c (VDict pi) (VDict d) t4 ->
  lookup "fullpath" d = Some fullpath -> truthy fullpath = true ->
  manifest_response h fullpath (l_video_id c) "mp4" "m3u8_native" "hls" = Ok formats ->
  rmap no_compression formats = Ok formats' ->
  lookup "title" pi = None ->
  _real_extract h url t
  = (Err (KeyError "title"), t4 ++ [manifest_request fullpath (l_video_id c)]).
Proof.
  intros Hreach Hfull Htrue Hm Hf Htitle.
  rewrite (real_extract_with_fullpath h _ _ _ _ _ _ _ Hreach Hfull Htrue).
  rewrite (build_result_run h _ _ (VDict d) fullpath t4)
    by (cbn [subscript]; now rewrite Hfull).
  rewrite Hm, Hf. unfold metadata. cbn [subscript]. rewrite Htitle. reflexivity.
Qed.

Lemma X13_missing_title_after_manifest_witness :
  _real_extract
    (Sample.host VNone (Some (VDict [("assetId", VStr "vod1")])) None
       (Some Sample.video_data)
       (Err (DownloadError "getProgramInfo")) (Err (DownloadError "getMainUrlNoAuth"))
       (Ok Sample.formats))
    Sample.url []
  = (Err (KeyError "title"),
     Sample.page_read
       ++ [manifest_request (VStr "https://litv.example/hls/vod1.m3u8") Sample.video_id]).
Proof.
  refine (X13_missing_title_after_manifest _ Sample.url [] Sample.page_read
            (Sample.locals_of VNone true (VDict [("assetId", VStr "vod1")]) (VList []))
            (VStr "https://litv.example/hls/vod1.m3u8")
            [("assetId", VStr "vod1")]
            [("fullpath", VStr "https://litv.example/hls/vod1.m3u8")]
            Sample.formats Sample.forced_formats _ _ _ _ _ _).
  - exists Sample.page_read. split.
    + exists Sample.page_read, Sample.page_read.
      repeat split; vm_compute; reflexivity.
    + vm_compute. reflexivity.
  - reflexivity.
  - reflexivity.
  - reflexivity.
  - reflexivity.
  - reflexivity.
Defined.

Lemma program_info_step_fetch (h : Host) (video_id : string)
    (d : list (string * value)) (t : list event) :
  lookup "assetId" d = None ->
  program_info_step h video_id (VDict d) t
  = (json_response h "https://www.litv.tv/vod/ajax/getProgramInfo" video_id
       [("contentId", video_id)] None [("Accept", "application/json")],
     t ++ [program_info_request video_id]).
Proof.
  intro Hnone. unfold program_info_step. rewrite bind_lift. cbn [contains].
  rewrite Hnone. reflexivity.
Qed.

Lemma video_data_step_fetch (h : Host) (video_id webpage : string)
    (program_info embedded assetId watchDevices contentType : value) (t : list event) :
  _parse_json h (_search_regex h VIDEO_DATA_RE webpage "video data" "{}") video_id
    = Ok embedded ->
  truthy embedded = false ->
  subscript program_info "assetId" = Ok assetId ->
  subscript program_info "watchDevices" = Ok watchDevices ->
  subscript program_info "contentType" = Ok contentType ->
  video_data_step h video_id webpage program_info t
  = (json_response h "https://www.litv.tv/vod/ajax/getMainUrlNoAuth" video_id []
       (Some (json_dumps h (VDict [("assetId", assetId);
                                   ("watchDevices", watchDevices);
                                   ("contentType", contentType)])))
       [("Content-Type", "application/json")],
     t ++ [main_url_request h video_id assetId watchDevices contentType]).
Proof.
  intros Hparse Hfalse Ha Hw Hc. unfold video_data_step.
  rewrite bind_lift, Hparse, Hfalse. cbn [negb].
  rewrite bind_lift, Ha. cbn [rbind]. rewrite Hw. cbn [rbind]. rewrite Hc.
  reflexivity.
Qed.

(** X14. The case the comment of lines 99-102 is about.  On a page that
    embeds nothing (no episode list, no [assetId], no video data) the call
    asks [getProgramInfo], then [getMainUrlNoAuth] with the payload built from
    the answer; when that answers with the region code and no [fullpath], the
    call ends with the geo-restriction signal after exactly these two
    requests, the manifest never being asked for. *)
Theorem X14_geo_blocked_page (h : Host) (url : string) (t t1 : list event)
    (c : locals) (page_info answer : list (string * value))
    (embedded program_info assetId watchDevices contentType : value) :
  read_page h url t = (Ok c, t1) ->
  truthy (l_episodes_list c) = false ->
  l_program_info c = VDict page_info -> lookup "assetId" page_info = None ->
  _parse_json h (_search_regex h VIDEO_DATA_RE (l_webpage c) "video data" "{}")
    (l_video_id c) = Ok embedded ->
  truthy embedded = false ->
  json_response h "https://www.litv.tv/vod/ajax/getProgramInfo" (l_video_id c)
    [("contentId", l_video_id c)] None [("Accept", "application/json")]
    = Ok program_info ->
  subscript program_info "assetId" = Ok assetId ->
  subscript program_info "watchDevices" = Ok watchDevices ->
  subscript program_info "contentType" = Ok contentType ->
  json_response h "https://www.litv.tv/vod/ajax/getMainUrlNoAuth" (l_video_id c) []
    (Some (json_dumps h (VDict [("assetId", assetId);
                                ("watchDevices", watchDevices);
                                ("contentType", contentType)])))
    [("Content-Type", "application/json")]
    = Ok (VDict answer) ->
  lookup "fullpath" answer = None ->
  lookup "errorMessage" answer = Some (VStr "vod.error.outsideregionerror") ->
  _real_extract h url t
  = (Err (GeoRestrictedError "This video is available in Taiwan only"),
     t1 ++ [program_info_request (l_video_id c);
            main_url_request h (l_video_id c) assetId watchDevices contentType]).
Proof.
  intros Hpage Heps Hinfo Hasset Hparse Hfalse Hpi Ha Hw Hc Hmain Hfull Hmsg.
  assert (Hbranch : playlist_branch h c t1 = (Ok None, t1)).
  { unfold playlist_branch. now rewrite Heps. }
  rewrite (real_extract_single h _ _ _ _ _ Hpage Hbranch), single_video_unfold, Hinfo.
  pose proof (program_info_step_fetch h (l_video_id c) page_info t1 Hasset) as H1.
  rewrite Hpi in H1. rewrite (bind_ok _ _ _ _ _ H1).
  pose proof (video_data_step_fetch h (l_video_id c) (l_webpage c) program_info embedded
                assetId watchDevices contentType
                (t1 ++ [program_info_request (l_video_id c)]) Hparse Hfalse Ha Hw Hc)
    as H2.
  rewrite Hmain in H2. rewrite (bind_ok _ _ _ _ _ H2).
  unfold require_fullpath. unfold bind at 1. rewrite bind_lift. cbn [get].
  rewrite Hfull. cbn [truthy negb]. rewrite bind_lift, Hmsg.
  cbn. now rewrite <- app_assoc.
Qed.

Lemma X14_geo_blocked_page_witness :
  _real_extract Sample.geo_blocked_host Sample.url []
  = (Err (GeoRestrictedError "This video is available in Taiwan only"),
     Sample.page_read
       ++ [program_info_request Sample.video_id;
           main_url_request Sample.geo_blocked_host Sample.video_id
             (VStr "vod1") (VList [VStr "PC"]) (VStr "drama")]).
Proof.
  refine (X14_geo_blocked_page Sample.geo_blocked_host Sample.url [] Sample.page_read
            (Sample.locals_of VNone true (VDict []) (VList []))
            [] [("errorMessage", VStr "vod.error.outsideregionerror")]
            (VDict []) Sample.program_info
            (VStr "vod1") (VList [VStr "PC"]) (VStr "drama")
            _ _ _ _ _ _ _ _ _ _ _ _ _).
  - vm_compute. reflexivity.
  - reflexivity.
  - reflexivity.
  - reflexivity.
  - reflexivity.
  - reflexivity.
  - reflexivity.
  - reflexivity.
  - reflexivity.
  - reflexivity.
  - reflexivity.
  - reflexivity.
  - reflexivity.
Defined.

End SingleVideoMore.

(* ================================================================== *)
(** ** Failures on the way                                              *)
(* ================================================================== *)

Section Failures.
Import Py Re Eff LiTVIE Obs EffFacts Req.
Local Arguments String.append : simpl never.

(** Lines 70-80 up to the request of the page, the smuggled data being a
    dictionary: line 77 reads the key line 76 has found. *)
Lemma read_page_to_download (h : Host) (url u : string) (d : list (string * value))
    (video_id : string) (t : list event) :
  unsmuggle_url h url = Ok (u, VDict d) ->
  _match_id u = Ok video_id ->
  read_page h url t
  = (webpage <- lift (webpage_response h u video_id) ;;
     program_info <- lift (_parse_json h
         (_search_regex h PROGRAM_INFO_RE webpage "VOD data" "{}") video_id) ;;
     episodes_list <- lift (_parse_json h
         (_search_regex h SEASON_LIST_RE webpage "Season list" "[]") video_id) ;;
     ret {| l_url := u; l_video_id := video_id;
            l_noplaylist := field "force_noplaylist" (noplaylist_param h) d;
            l_noplaylist_prompt :=
              match lookup "force_noplaylist" d with Some _ => false | None => true end;
            l_webpage := webpage; l_program_info := program_info;
            l_episodes_list := episodes_list |})
      (t ++ [WebpageRequest u video_id]).
Proof.
  intros Hu Hid. unfold read_page, field.
  rewrite bind_lift, Hu. cbn [fst snd]. rewrite bind_lift, Hid, bind_lift.
  cbn [contains subscript].
  destruct (lookup "force_noplaylist" d) as [v|]; [rewrite bind_lift|]; reflexivity.
Qed.

(** X15. What fails before line 90 ends the call at once, in a first call as
    in the recursive call on an episode, that is whatever dictionary was
    smuggled in the URL: when the page cannot be downloaded, or the embedded
    [programInfo] or episode list is there but does not parse, the call ends
    with that very error, the page being the only thing requested and nothing
    printed.  Only the absence of the embedded data is tolerated, not its
    malformation. *)
Theorem X15_early_failures (h : Host) (url u : string) (d : list (string * value))
    (video_id : string) (t : list event) (e : exn) :
  unsmuggle_url h url = Ok (u, VDict d) ->
  _match_id u = Ok video_id ->
  webpage_response h u video_id = Err e \/
  (exists webpage,
     webpage_response h u video_id = Ok webpage /\
     (_parse_json h (_search_regex h PROGRAM_INFO_RE webpage "VOD data" "{}") video_id
        = Err e \/
      exists program_info,
        _parse_json h (_search_regex h PROGRAM_INFO_RE webpage "VOD data" "{}") video_id
          = Ok program_info /\
        _parse_json h (_search_regex h SEASON_LIST_RE webpage "Season list" "[]")
          video_id = Err e)) ->
  _real_extract h url t = (Err e, t ++ [WebpageRequest u video_id]).
Proof.
  intros Hu Hid Hfail. unfold _real_extract.
  apply bind_err. rewrite (read_page_to_download h _ _ _ _ t Hu Hid).
  destruct Hfail as [Hw | (webpage & Hw & [Hp | (program_info & Hp & Hl)])].
  - now rewrite bind_lift, Hw.
  - now rewrite bind_lift, Hw, bind_lift, Hp.
  - now rewrite bind_lift, Hw, bind_lift, Hp, bind_lift, Hl.
Qed.

Lemma X15_early_failures_witness :
  _real_extract (offline Sample.playlist_host) Sample.episode_url []
  = (Err (DownloadError "webpage"), [] ++ [WebpageRequest Sample.url Sample.video_id]).
Proof.
  refine (X15_early_failures (offline Sample.playlist_host) Sample.episode_url Sample.url
            [("force_noplaylist", VBool true)] Sample.video_id []
            (DownloadError "webpage") _ _ _).
  - vm_compute. reflexivity.
  - vm_compute. reflexivity.
  - left. reflexivity.
Defined.

(** The same failure in a first call, nothing being smuggled. *)
Example first_call_offline :
  unsmuggle_url (offline Sample.playlist_host) Sample.url = Ok (Sample.url, VDict []) /\
  _real_extract (offline Sample.playlist_host) Sample.url []
  = (Err (DownloadError "webpage"), [WebpageRequest Sample.url Sample.video_id]).
Proof. vm_compute. split; reflexivity. Qed.

(** X16. One format whose [http_headers] is not a dictionary makes the whole
    call fail with [TypeError], after the manifest has been fetched: no
    record is returned for the formats that were fine. *)
Theorem X16_bad_headers_fail_the_call (h : Host) (url : string) (t t4 : list event)
    (c : locals) (program_info fullpath headers : value)
    (d fd : list (string * value)) (good good' rest : list value) :
  reaches_video_data h url t c program_info (VDict d) t4 ->
  lookup "fullpath" d = Some fullpath -> truthy fullpath = true ->
  manifest_response h fullpath (l_video_id c) "mp4" "m3u8_native" "hls"
    = Ok (good ++ VDict fd :: rest) ->
  rmap no_compression good = Ok good' ->
  lookup "http_headers" fd = Some headers ->
  (forall hd, headers <> VDict hd) ->
  _real_extract h url t
  = (Err TypeError, t4 ++ [manifest_request fullpath (l_video_id c)]).
Proof.
  intros Hreach Hfull Htrue Hm Hgood Hh Hnd.
  rewrite (real_extract_with_fullpath h _ _ _ _ _ _ _ Hreach Hfull Htrue).
  rewrite (build_result_run h _ _ (VDict d) fullpath t4)
    by (cbn [subscript]; now rewrite Hfull).
  rewrite Hm. erewrite rmap_first_error; [reflexivity | exact Hgood |].
  unfold no_compression. rewrite Hh.
  destruct headers; try reflexivity. now destruct (Hnd d0).
Qed.

Lemma X16_bad_headers_fail_the_call_witness :
  _real_extract
    (Sample.host VNone (Some Sample.program_info) None (Some Sample.video_data)
       (Err (DownloadError "getProgramInfo")) (Err (DownloadError "getMainUrlNoAuth"))
       (Ok (Sample.formats ++ [VDict [("http_headers", VNone)]])))
    Sample.url []
  = (Err TypeError,
     Sample.page_read
       ++ [manifest_request (VStr "https://litv.example/hls/vod1.m3u8") Sample.video_id]).
Proof.
  refine (X16_bad_headers_fail_the_call _ Sample.url [] Sample.page_read
            (Sample.locals_of VNone true Sample.program_info (VList []))
            Sample.program_info (VStr "https://litv.example/hls/vod1.m3u8") VNone
            [("fullpath", VStr "https://litv.example/hls/vod1.m3u8")]
            [("http_headers", VNone)] Sample.formats Sample.forced_formats []
            _ _ _ _ _ _ _).
  - exists Sample.page_read. split.
    + exists Sample.page_read, Sample.page_read.
      repeat split; vm_compute; reflexivity.
    + vm_compute. reflexivity.
  - reflexivity.
  - reflexivity.
  - reflexivity.
  - reflexivity.
  - reflexivity.
  - discriminate.
Defined.

(** X17. An embedded [programInfo] that is not an object but [null], a
    number or a boolean is not tolerated as its absence is: on the playlist
    path as on the single-video path the call ends with [TypeError] right
    after the page is read, before any further request. *)
Theorem X17_program_info_not_an_object (h : Host) (url : string) (t t1 : list event)
    (c : locals) :
  read_page h url t = (Ok c, t1) ->
  (l_program_info c = VNone \/ (exists n, l_program_info c = VInt n) \/
   exists b, l_program_info c = VBool b) ->
  exists evs,
    _real_extract h url t = (Err TypeError, t1 ++ evs) /\ requests evs = [].
Proof.
  intros Hpage Hpi. unfold _real_extract. rewrite (bind_ok _ _ _ _ _ Hpage).
  assert (Hsub : subscript (l_program_info c) "title" = Err TypeError)
    by (destruct Hpi as [->|[[n ->]|[b ->]]]; reflexivity).
  assert (Hin : contains "assetId" (l_program_info c) = Err TypeError)
    by (destruct Hpi as [->|[[n ->]|[b ->]]]; reflexivity).
  assert (Hsingle : forall t2,
             single_video h (l_video_id c) (l_webpage c) (l_program_info c) t2
             = (Err TypeError, t2)).
  { intro t2. unfold single_video, program_info_step.
    unfold bind at 1. now rewrite bind_lift, Hin. }
  unfold playlist_branch.
  destruct (truthy (l_episodes_list c)).
  - destruct (truthy (l_noplaylist c)); cbn [negb].
    + unfold bind at 1. unfold bind at 1. unfold when, to_screen, emit, ret.
      destruct (l_noplaylist_prompt c).
      * rewrite Hsingle. eexists. split; [reflexivity | reflexivity].
      * rewrite Hsingle. exists []. rewrite app_nil_r. auto.
    + unfold _extract_playlist. unfold bind at 1. unfold bind at 1.
      rewrite bind_lift, Hsub. exists []. rewrite app_nil_r. auto.
  - unfold bind at 1. unfold ret. rewrite Hsingle. exists []. rewrite app_nil_r. auto.
Qed.

Lemma X17_program_info_not_an_object_witness :
  exists evs,
    _real_extract
      (Sample.host VNone (Some VNone) None None
         (Ok Sample.program_info) (Ok Sample.video_data) (Ok Sample.formats))
      Sample.url []
    = (Err TypeError, Sample.page_read ++ evs) /\ requests evs = [].
Proof.
  refine (X17_program_info_not_an_object _ Sample.url [] Sample.page_read
            (Sample.locals_of VNone true VNone (VList [])) _ _).
  - vm_compute. reflexivity.
  - left. reflexivity.
Defined.

End Failures.
